(** * Verification of the Magento MCP tool server ([src/index.ts])

    The server registers eight tools on an MCP server.  Six of them forward
    a GET request to a Magento REST endpoint through [makeApiCall]; two are
    local arithmetic tools.  This development embeds the TypeScript source
    shallowly: JavaScript strings are sequences of UTF-16 code units,
    numbers are IEEE-754 binary64 values, the per-call headers object is a
    finite map, and the asynchronous, throwing code of the handlers is a
    computation that threads the trace of [fetch] calls and may complete
    abruptly with an error object.

    The built-in functions the source calls ([encodeURIComponent],
    [URLSearchParams], [JSON.stringify], [Number.prototype.toString],
    [String.prototype.startsWith]) are written out after ECMA-262 and the
    URL standard, so that the handlers can be run on concrete inputs. *)

From Stdlib Require Import ZArith NArith List String Ascii Bool Lia.
From Stdlib Require Import SpecFloat DecimalString.
From stdpp Require Import base option list gmap.

Local Open Scope N_scope.
#[local] Set Warnings "-register-all".

(** ** JavaScript strings *)

Module JsString.

(** A JavaScript string is a sequence of 16-bit code units. *)
Definition jsstring := list N.

(** A source literal (ASCII only) read as a JavaScript string. *)
Definition js (s : string) : jsstring :=
  map N_of_ascii (list_ascii_of_string s).
#[global] Arguments js : simpl never.

Fixpoint eqb (s t : jsstring) : bool :=
  match s, t with
  | [], [] => true
  | c :: s', d :: t' => (c =? d) && eqb s' t'
  | _, _ => false
  end.

(** [String.prototype.startsWith] with position 0. *)
Fixpoint startsWith (s prefix : jsstring) {struct prefix} : bool :=
  match prefix, s with
  | [], _ => true
  | p :: prefix', c :: s' => (c =? p) && startsWith s' prefix'
  | _ :: _, [] => false
  end.

(** [String.prototype.includes]: [sub] occurs somewhere in [s]. *)
Fixpoint includes (s sub : jsstring) : bool :=
  startsWith s sub ||
  match s with
  | [] => false
  | _ :: s' => includes s' sub
  end.

(** ToBoolean on a string: only the empty string is falsy. *)
Definition truthy (s : jsstring) : bool :=
  match s with [] => false | _ :: _ => true end.

Definition isLeadSurrogate (c : N) : bool := (0xD800 <=? c) && (c <=? 0xDBFF).
Definition isTrailSurrogate (c : N) : bool := (0xDC00 <=? c) && (c <=? 0xDFFF).

(** What CodePointAt finds at a position: a code point, or a surrogate
    code unit that is not part of a pair. *)
Inductive codepoint :=
| Scalar (cp : N)
| Unpaired (c : N).

(** StringToCodePoints: a lead surrogate followed by a trail surrogate is
    one code point, every other code unit stands for itself. *)
Fixpoint toCodePoints (s : jsstring) : list codepoint :=
  match s with
  | [] => []
  | c :: s' =>
      if isLeadSurrogate c then
        match s' with
        | d :: s'' =>
            if isTrailSurrogate d
            then Scalar ((c - 0xD800) * 0x400 + (d - 0xDC00) + 0x10000)
                   :: toCodePoints s''
            else Unpaired c :: toCodePoints s'
        | [] => [Unpaired c]
        end
      else if isTrailSurrogate c then Unpaired c :: toCodePoints s'
      else Scalar c :: toCodePoints s'
  end.

Definition isScalar (c : codepoint) : bool :=
  match c with Scalar _ => true | Unpaired _ => false end.

(** [String.prototype.isWellFormed]: no unpaired surrogate. *)
Definition isWellFormed (s : jsstring) : bool := forallb isScalar (toCodePoints s).

(** Conversion to a USVString (WebIDL): every unpaired surrogate becomes
    U+FFFD. *)
Definition toUSV (cps : list codepoint) : list N :=
  map (fun c => match c with Scalar cp => cp | Unpaired _ => 0xFFFD end) cps.

(** The UTF-8 encoding of one scalar value. *)
Definition utf8 (cp : N) : list N :=
  if cp <? 0x80 then [cp]
  else if cp <? 0x800 then [0xC0 + cp / 0x40; 0x80 + cp mod 0x40]
  else if cp <? 0x10000 then
    [0xE0 + cp / 0x1000; 0x80 + (cp / 0x40) mod 0x40; 0x80 + cp mod 0x40]
  else
    [0xF0 + cp / 0x40000; 0x80 + (cp / 0x1000) mod 0x40;
     0x80 + (cp / 0x40) mod 0x40; 0x80 + cp mod 0x40].

Definition isAsciiAlphanumeric (c : N) : bool :=
  ((0x30 <=? c) && (c <=? 0x39)) ||
  ((0x41 <=? c) && (c <=? 0x5A)) ||
  ((0x61 <=? c) && (c <=? 0x7A)).

Definition hexDigitUpper (d : N) : N :=
  if d <? 10 then 0x30 + d else 0x41 + (d - 10).

Definition hexDigitLower (d : N) : N :=
  if d <? 10 then 0x30 + d else 0x61 + (d - 10).

(** [%XX] for one byte, upper-case hexadecimal. *)
Definition percentEncodeByte (b : N) : jsstring :=
  [0x25; hexDigitUpper (b / 16); hexDigitUpper (b mod 16)].

End JsString.

(** ** JavaScript numbers *)

Module JsNumber.
Import JsString.
Local Open Scope Z_scope.

(** The Number type: IEEE-754 binary64 values. *)
Definition number := spec_float.

Definition prec : Z := 53.
Definition emax : Z := 1024.

Definition add : number -> number -> number := SFadd prec emax.
Definition sub : number -> number -> number := SFsub prec emax.
Definition mul : number -> number -> number := SFmul prec emax.
Definition div : number -> number -> number := SFdiv prec emax.

(** The Number value of an integer literal. *)
Definition ofZ (z : Z) : number := binary_normalize prec emax z 0 false.

(** [x === y] on numbers (Number::equal): NaN differs from everything, and
    the two zeros are equal. *)
Definition strictEquals (x y : number) : bool := SFeqb x y.

(** The decimal digits of a non-negative integer. *)
Definition decimal (z : Z) : jsstring :=
  js (NilZero.string_of_uint (N.to_uint (Z.to_N z))).

(** The decimal numeral of an integer, with its sign. *)
Definition signedDecimal (z : Z) : jsstring :=
  if z <? 0 then js "-" ++ decimal (- z) else decimal z.

(** The Number value for s * 10^p: the binary64 value nearest to it, ties
    to even. *)
Definition roundDecimal (s p : Z) : number :=
  if 0 <=? p then binary_normalize prec emax (s * 10 ^ p) 0 false
  else
    let '(mz, ez, lz) := SFdiv_core_binary prec emax s 0 (10 ^ (- p)) 0 in
    binary_round_aux prec emax false mz ez lz.

(** m * 2^e / 10^p as a fraction of two positive integers. *)
Definition scaledNum (m e p : Z) : Z := m * 2 ^ Z.max e 0 * 10 ^ Z.max (- p) 0.
Definition scaledDen (e p : Z) : Z := 2 ^ Z.max (- e) 0 * 10 ^ Z.max p 0.

(** The least [n], searched upwards from [n], with m * 2^e < 10^n. *)
Fixpoint magnitude (fuel : nat) (m e n : Z) : Z :=
  match fuel with
  | O => n
  | S fuel' =>
      if scaledNum m e n <? scaledDen e n then n
      else magnitude fuel' m e (n + 1)
  end.

(** Step 5 of Number::toString: integers [n], [k], [s] with [k] least such
    that 10^(k-1) <= s < 10^k and the Number value for s * 10^(n-k) is the
    value; among
    several [s], the one nearest to the value, the even one on a tie.
    The two candidates for a given [k] are the neighbours of the value
    among the multiples of 10^(n-k). *)
Fixpoint shortest (fuel : nat) (m : positive) (e n k : Z) : Z * Z * Z :=
  let p := n - k in
  let lo := scaledNum (Zpos m) e p / scaledDen e p in
  let hi := lo + 1 in
  let x := S754_finite false m e in
  let okLo := (0 <? lo) && SFeqb (roundDecimal lo p) x in
  let okHi := SFeqb (roundDecimal hi p) x in
  let up := if hi =? 10 ^ k then (n + 1, k, 10 ^ (k - 1)) else (n, k, hi) in
  let down := (n, k, lo) in
  match fuel with
  | O => down
  | S fuel' =>
      if okLo && okHi then
        match (2 * scaledNum (Zpos m) e p ?= (2 * lo + 1) * scaledDen e p) with
        | Lt => down
        | Gt => up
        | Eq => if Z.even lo then down else up
        end
      else if okLo then down
      else if okHi then up
      else shortest fuel' m e n (k + 1)
  end.

Definition zeros (n : Z) : jsstring := repeat 0x30%N (Z.to_nat n).

(** Number::toString for a positive finite value, radix 10.  The search
    for [n] starts from floor(log2 x) * 0.30103, which is at most a few
    units below it; seventeen digits always identify a binary64 value. *)
Definition toStringPositive (m : positive) (e : Z) : jsstring :=
  let n0 := ((Zpos (digits2_pos m) + e - 1) * 30103) / 100000 in
  let n1 := magnitude 4 (Zpos m) e n0 in
  let '(n, k, s) := shortest 21 m e n1 1 in
  let digits := decimal s in
  if (-5 <=? n) && (n <=? 21) then
    if k <=? n then digits ++ zeros (n - k)
    else if 0 <? n then
      firstn (Z.to_nat n) digits ++ js "." ++ skipn (Z.to_nat n) digits
    else js "0." ++ zeros (- n) ++ digits
  else
    let exponentSign := if n <? 0 then js "-" else js "+" in
    if k =? 1 then digits ++ js "e" ++ exponentSign ++ decimal (Z.abs (n - 1))
    else
      firstn 1 digits ++ js "." ++ skipn 1 digits ++
      js "e" ++ exponentSign ++ decimal (Z.abs (n - 1)).

(** Number::toString(x, 10), which is [String(x)], [x.toString()] and a
    number in a template literal. *)
Definition toString (x : number) : jsstring :=
  match x with
  | S754_nan => js "NaN"
  | S754_zero _ => js "0"
  | S754_infinity false => js "Infinity"
  | S754_infinity true => js "-Infinity"
  | S754_finite false m e => toStringPositive m e
  | S754_finite true m e => js "-" ++ toStringPositive m e
  end.

End JsNumber.

(** ** Abrupt completions *)

Module JsError.
Import JsString.

(** The constructor of a thrown error object. *)
Inductive ErrorName := Error | TypeError | SyntaxError | URIError.

(** An error object; the handlers read only [message]. *)
Record error := { name : ErrorName; message : jsstring }.

(** The outcome of evaluating an expression or awaiting a promise: a
    value, or a thrown error (a rejection). *)
Inductive completion (A : Type) :=
| Normal (a : A)
| Throw (e : error).
Arguments Normal {A} a.
Arguments Throw {A} e.

End JsError.

(** ** URI and form encoding *)

Module Uri.
Import JsString JsError.

(** The characters [encodeURIComponent] leaves alone: ASCII letters and
    digits and [-_.!~*'()]. *)
Definition uriUnescaped (c : N) : bool :=
  isAsciiAlphanumeric c || existsb (N.eqb c) (js "-_.!~*'()").

(** The abstract operation Encode: UTF-8, percent-escaped; an unpaired
    surrogate is a URIError (V8's message). *)
Fixpoint encode (cps : list codepoint) : completion jsstring :=
  match cps with
  | [] => Normal []
  | Unpaired _ :: _ => Throw {| name := URIError; message := js "URI malformed" |}
  | Scalar cp :: rest =>
      match encode rest with
      | Normal r =>
          Normal ((if uriUnescaped cp then [cp]
                   else flat_map percentEncodeByte (utf8 cp)) ++ r)
      | Throw e => Throw e
      end
  end.

Definition encodeURIComponent (s : jsstring) : completion jsstring :=
  encode (toCodePoints s).

(** A [URLSearchParams] object: its list of name-value pairs, each a
    sequence of scalar values (USVString). *)
Definition URLSearchParams := list (list N * list N).

Definition toUSVString (s : jsstring) : list N := toUSV (toCodePoints s).

(** [new URLSearchParams(record)]: one pair per property, in property
    order. *)
Definition newURLSearchParams (init : list (jsstring * jsstring)) : URLSearchParams :=
  map (fun kv => (toUSVString (fst kv), toUSVString (snd kv))) init.

(** [params.append(name, value)]. *)
Definition append (params : URLSearchParams) (name value : jsstring) : URLSearchParams :=
  params ++ [(toUSVString name, toUSVString value)].

(** The application/x-www-form-urlencoded byte serializer: letters,
    digits and [*-._] stay, a space becomes [+], the rest is escaped. *)
Definition urlencodedByte (b : N) : jsstring :=
  if b =? 0x20 then [0x2B]
  else if isAsciiAlphanumeric b || existsb (N.eqb b) (js "*-._") then [b]
  else percentEncodeByte b.

Definition urlencoded (s : list N) : jsstring :=
  flat_map urlencodedByte (flat_map utf8 s).

(** [params.toString()], also what a template literal inserts. *)
Fixpoint serialize (params : URLSearchParams) : jsstring :=
  match params with
  | [] => []
  | (n, v) :: rest =>
      urlencoded n ++ js "=" ++ urlencoded v ++
      match rest with
      | [] => []
      | _ :: _ => js "&" ++ serialize rest
      end
  end.

(** [params.has(name)]. *)
Definition has (params : URLSearchParams) (name : jsstring) : bool :=
  existsb (fun kv => JsString.eqb (fst kv) (toUSVString name)) params.

End Uri.

(** ** JSON values and [JSON.stringify] *)

Module JSON.
Import JsString JsNumber.

(** What [JSON.parse] (and so [response.json()]) can produce.  An object
    lists its properties in property order. *)
Inductive value :=
| JNull
| JBool (b : bool)
| JNumber (x : number)
| JString (s : jsstring)
| JArray (items : list value)
| JObject (props : list (jsstring * value)).

(** ToBoolean. *)
Definition toBoolean (v : value) : bool :=
  match v with
  | JNull => false
  | JBool b => b
  | JNumber (S754_zero _) | JNumber S754_nan => false
  | JNumber _ => true
  | JString s => truthy s
  | JArray _ | JObject _ => true
  end.

(** [\uXXXX] with lower-case hexadecimal digits. *)
Definition unicodeEscape (c : N) : jsstring :=
  [0x5C; 0x75; hexDigitLower (c / 0x1000); hexDigitLower ((c / 0x100) mod 16);
   hexDigitLower ((c / 0x10) mod 16); hexDigitLower (c mod 16)].

Definition utf16 (cp : N) : jsstring :=
  if cp <? 0x10000 then [cp]
  else [0xD800 + (cp - 0x10000) / 0x400; 0xDC00 + (cp - 0x10000) mod 0x400].

Definition quoteCodePoint (c : codepoint) : jsstring :=
  match c with
  | Unpaired u => unicodeEscape u
  | Scalar cp =>
      if cp =? 0x08 then [0x5C; 0x62]
      else if cp =? 0x09 then [0x5C; 0x74]
      else if cp =? 0x0A then [0x5C; 0x6E]
      else if cp =? 0x0C then [0x5C; 0x66]
      else if cp =? 0x0D then [0x5C; 0x72]
      else if cp =? 0x22 then [0x5C; 0x22]
      else if cp =? 0x5C then [0x5C; 0x5C]
      else if cp <? 0x20 then unicodeEscape cp
      else utf16 cp
  end.

(** QuoteJSONString. *)
Definition quote (s : jsstring) : jsstring :=
  [0x22] ++ flat_map quoteCodePoint (toCodePoints s) ++ [0x22].

Fixpoint join (sep : jsstring) (parts : list jsstring) : jsstring :=
  match parts with
  | [] => []
  | [p] => p
  | p :: rest => p ++ sep ++ join sep rest
  end.

(** The common tail of SerializeJSONArray and SerializeJSONObject. *)
Definition enclose (open close gap stepback indent : jsstring)
    (partial : list jsstring) : jsstring :=
  match partial with
  | [] => open ++ close
  | _ :: _ =>
      match gap with
      | [] => open ++ join (js ",") partial ++ close
      | _ :: _ =>
          open ++ [0x0A] ++ indent ++ join (js "," ++ [0x0A] ++ indent) partial ++
          [0x0A] ++ stepback ++ close
      end
  end.

(** SerializeJSONProperty at indentation [indent]. *)
Fixpoint serialize (gap indent : jsstring) (v : value) : jsstring :=
  match v with
  | JNull => js "null"
  | JBool true => js "true"
  | JBool false => js "false"
  | JNumber x =>
      match x with
      | S754_nan | S754_infinity _ => js "null"
      | _ => JsNumber.toString x
      end
  | JString s => quote s
  | JArray items =>
      enclose (js "[") (js "]") gap indent (indent ++ gap)
        (map (serialize gap (indent ++ gap)) items)
  | JObject props =>
      enclose (js "{") (js "}") gap indent (indent ++ gap)
        (map (fun kv =>
                match kv with
                | (k, p) =>
                    quote k ++ js ":" ++
                    match gap with [] => [] | _ :: _ => js " " end ++
                    serialize gap (indent ++ gap) p
                end) props)
  end.

(** [JSON.stringify(value, null, space)] for a numeric [space]: the gap is
    [min(10, space)] spaces. *)
Definition stringify (v : value) (space : nat) : jsstring :=
  serialize (repeat 0x20 (Nat.min 10 space)) [] v.

End JSON.

(** ** The network and asynchronous computations *)

Module Fetch.
Import JsString JsError.

(** A plain object with string-valued properties, such as the per-call
    headers object or the [headers] of a [RequestInit].  Property names
    are case-sensitive. *)
Abbreviation object := (gmap jsstring jsstring).

(** The [RequestInit] handed to [fetch]. *)
Record RequestInit := {
  method : jsstring;
  headers : object;
  body : option jsstring
}.

(** What the code observes of a [Response]: its status line and the
    outcome of reading the body as text and as JSON. *)
Record Response := {
  status : N;
  statusText : jsstring;
  text : completion jsstring;
  json : completion JSON.value
}.

(** [response.ok]: the status is in the range 200 to 299. *)
Definition ok (r : Response) : bool := (200 <=? status r) && (status r <=? 299).

Definition FetchCall : Type := jsstring * RequestInit.

(** The upstream: what a [fetch] of a URL with given options settles to. *)
Definition Network : Type := jsstring -> RequestInit -> completion Response.

(** An asynchronous function body: it runs against the network, appends
    to the trace of [fetch] calls made so far, and completes normally or
    abruptly. *)
Definition async (A : Type) : Type :=
  Network -> list FetchCall -> completion A * list FetchCall.

Definition ret {A} (a : A) : async A := fun _ trace => (Normal a, trace).

Definition throw {A} (e : error) : async A := fun _ trace => (Throw e, trace).

(** [await] of an already settled promise, or a throwing expression. *)
Definition await {A} (c : completion A) : async A := fun _ trace => (c, trace).

Definition bind {A B} (c : async A) (k : A -> async B) : async B :=
  fun net trace =>
    match c net trace with
    | (Normal a, trace') => k a net trace'
    | (Throw e, trace') => (Throw e, trace')
    end.

(** [try { c } catch (error) { handler error }]. *)
Definition try_catch {A} (c : async A) (handler : error -> async A) : async A :=
  fun net trace =>
    match c net trace with
    | (Normal a, trace') => (Normal a, trace')
    | (Throw e, trace') => handler e net trace'
    end.

(** [await fetch(url, init)]. *)
Definition fetch (url : jsstring) (init : RequestInit) : async Response :=
  fun net trace => (net url init, trace ++ [(url, init)]).

(** Running a handler from an empty trace. *)
Definition run {A} (net : Network) (c : async A) : completion A * list FetchCall :=
  c net [].

End Fetch.

Notation "'let*' x ':=' c 'in' k" := (Fetch.bind c (fun x => k))
(at level 10, x name, c at level 100, k at level 200).

(** ** The agent: [MyMCP] *)

Module MyMCP.
Import JsString JsNumber JsError Fetch.

(** [new Error(message)]. *)
Definition newError (msg : jsstring) : error := {| name := Error; message := msg |}.

(** ToBoolean of a header value that may be [undefined]. *)
Definition toBoolean (v : option jsstring) : bool :=
  match v with
  | Some s => truthy s
  | None => false
  end.

(** [headers?.[key]]. *)
Definition get (headers : option object) (key : jsstring) : option jsstring :=
  match headers with
  | Some h => h !! key
  | None => None
  end.

(** The body of the [try] block of [makeApiCall]. *)
Definition makeApiCall_try (endpoint method : jsstring) (data : JSON.value)
    (headers : option object) : async JSON.value :=
  (* Extract domain and token from incoming request headers *)
  let magentoUrl := get headers (js "x-magento-domain") in
  let bearerToken := get headers (js "authorization") in
  match magentoUrl, bearerToken with
  | Some magentoUrl, Some bearerToken =>
      if negb (truthy magentoUrl) || negb (truthy bearerToken) then
        throw (newError (js "Missing required headers: x-magento-domain and authorization"))
      else
        (* Ensure bearer token format *)
        let token :=
          if startsWith bearerToken (js "Bearer ") then bearerToken
          else js "Bearer " ++ bearerToken in
        let apiUrl := magentoUrl ++ js "/rest/V1/" ++ endpoint in
        let requestOptions := {|
          method := method;
          (* the spread of [headers] comes last and wins *)
          headers :=
            default ∅ headers ∪
            <[js "Authorization" := token]>
              (<[js "Content-Type" := js "application/json"]>
                 {[js "Accept" := js "application/json"]});
          body :=
            if JSON.toBoolean data && negb (JsString.eqb method (js "GET"))
            then Some (JSON.stringify data 0)
            else None
        |} in
        let* response := fetch apiUrl requestOptions in
        if negb (ok response) then
          let* errorText := await (text response) in
          throw (newError (js "API call failed: " ++
                           JsNumber.toString (JsNumber.ofZ (Z.of_N (status response))) ++
                           js " " ++ statusText response ++ js " - " ++ errorText))
        else
          await (json response)
  | _, _ =>
      (* one of the two is undefined, hence falsy *)
      throw (newError (js "Missing required headers: x-magento-domain and authorization"))
  end.

Definition makeApiCall (endpoint method : jsstring) (data : JSON.value)
    (headers : option object) : async JSON.value :=
  try_catch (makeApiCall_try endpoint method data headers)
    (fun error => throw (newError (js "API call error: " ++ message error))).

(** *** Tool results *)

Record ContentBlock := { type : jsstring; text : jsstring }.

Record ToolResult := { content : list ContentBlock }.

(** *** get_product_by_sku *)

Definition get_product_by_sku_try (sku : jsstring) (headers : option object)
    : async ToolResult :=
  let* encoded := await (Uri.encodeURIComponent sku) in
  let* result :=
    makeApiCall (js "mcpdata/product/sku/" ++ encoded) (js "GET") JSON.JNull headers in
  ret {| content := [ {| type := js "text"; text := JSON.stringify result 2 |} ] |}.

Definition get_product_by_sku (sku : jsstring) (headers : option object)
    : async ToolResult :=
  try_catch (get_product_by_sku_try sku headers)
    (fun error =>
       ret {| content := [ {| type := js "text";
                              text := js "Error: " ++ message error |} ] |}).

(** *** get_products_by_ids *)

Definition get_products_by_ids_try (ids : jsstring) (headers : option object)
    : async ToolResult :=
  let* encoded := await (Uri.encodeURIComponent ids) in
  let* result :=
    makeApiCall (js "mcpdata/products/ids/" ++ encoded) (js "GET") JSON.JNull headers in
  ret {| content := [ {| type := js "text"; text := JSON.stringify result 2 |} ] |}.

Definition get_products_by_ids (ids : jsstring) (headers : option object)
    : async ToolResult :=
  try_catch (get_products_by_ids_try ids headers)
    (fun error =>
       ret {| content := [ {| type := js "text";
                              text := js "Error: " ++ message error |} ] |}).

(** *** search_products *)

(** The validated arguments; an omitted optional field is [None]. *)
Record SearchArgs := {
  query : option jsstring;
  page_size : option number;
  current_page : option number
}.

(** The [params] of the handler: destructuring defaults, then
    [new URLSearchParams({ query, pageSize, currentPage })]. *)
Definition search_products_params (args : SearchArgs) : Uri.URLSearchParams :=
  let query := default [] (query args) in
  let page_size := default (ofZ 10) (page_size args) in
  let current_page := default (ofZ 1) (current_page args) in
  Uri.newURLSearchParams
    [ (js "query", query);
      (js "pageSize", JsNumber.toString page_size);
      (js "currentPage", JsNumber.toString current_page) ].

Definition search_products_try (args : SearchArgs) (headers : option object)
    : async ToolResult :=
  let params := search_products_params args in
  let* result :=
    makeApiCall (js "mcpdata/products/search?" ++ Uri.serialize params)
      (js "GET") JSON.JNull headers in
  ret {| content := [ {| type := js "text"; text := JSON.stringify result 2 |} ] |}.

Definition search_products (args : SearchArgs) (headers : option object)
    : async ToolResult :=
  try_catch (search_products_try args headers)
    (fun error =>
       ret {| content := [ {| type := js "text";
                              text := js "Error: " ++ message error |} ] |}).

(** *** get_product_categories *)

Definition get_product_categories_try (sku : jsstring) (headers : option object)
    : async ToolResult :=
  let* encoded := await (Uri.encodeURIComponent sku) in
  let* result :=
    makeApiCall (js "mcpdata/product/categories/" ++ encoded) (js "GET") JSON.JNull
      headers in
  ret {| content := [ {| type := js "text"; text := JSON.stringify result 2 |} ] |}.

Definition get_product_categories (sku : jsstring) (headers : option object)
    : async ToolResult :=
  try_catch (get_product_categories_try sku headers)
    (fun error =>
       ret {| content := [ {| type := js "text";
                              text := js "Error: " ++ message error |} ] |}).

(** *** get_bestsellers *)

Record BestsellersArgs := {
  bs_date_range : option jsstring;
  bs_limit : option number;
  bs_status : option jsstring
}.

(** The [params] of the handler, after [if (status) params.append(...)]. *)
Definition get_bestsellers_params (args : BestsellersArgs) : Uri.URLSearchParams :=
  let date_range := default (js "today") (bs_date_range args) in
  let limit := default (ofZ 10) (bs_limit args) in
  let status := bs_status args in
  let params :=
    Uri.newURLSearchParams
      [ (js "dateRange", date_range);
        (js "limit", JsNumber.toString limit) ] in
  match status with
  | Some status =>
      if truthy status then Uri.append params (js "status") status else params
  | None => params
  end.

Definition get_bestsellers_try (args : BestsellersArgs) (headers : option object)
    : async ToolResult :=
  let params := get_bestsellers_params args in
  let* result :=
    makeApiCall (js "mcpdata/bestsellers?" ++ Uri.serialize params)
      (js "GET") JSON.JNull headers in
  ret {| content := [ {| type := js "text"; text := JSON.stringify result 2 |} ] |}.

Definition get_bestsellers (args : BestsellersArgs) (headers : option object)
    : async ToolResult :=
  try_catch (get_bestsellers_try args headers)
    (fun error =>
       ret {| content := [ {| type := js "text";
                              text := js "Error: " ++ message error |} ] |}).

(** *** get_revenue *)

Record RevenueArgs := {
  rv_date_range : option jsstring;
  rv_status : option jsstring;
  rv_include_tax : option bool
}.

(** [Boolean.prototype.toString]. *)
Definition booleanToString (b : bool) : jsstring :=
  if b then js "true" else js "false".

Definition get_revenue_params (args : RevenueArgs) : Uri.URLSearchParams :=
  let date_range := default (js "today") (rv_date_range args) in
  let status := rv_status args in
  let include_tax := default true (rv_include_tax args) in
  let params :=
    Uri.newURLSearchParams
      [ (js "dateRange", date_range);
        (js "includeTax", booleanToString include_tax) ] in
  match status with
  | Some status =>
      if truthy status then Uri.append params (js "status") status else params
  | None => params
  end.

Definition get_revenue_try (args : RevenueArgs) (headers : option object)
    : async ToolResult :=
  let params := get_revenue_params args in
  let* result :=
    makeApiCall (js "mcpdata/revenue?" ++ Uri.serialize params)
      (js "GET") JSON.JNull headers in
  ret {| content := [ {| type := js "text"; text := JSON.stringify result 2 |} ] |}.

Definition get_revenue (args : RevenueArgs) (headers : option object)
    : async ToolResult :=
  try_catch (get_revenue_try args headers)
    (fun error =>
       ret {| content := [ {| type := js "text";
                              text := js "Error: " ++ message error |} ] |}).

(** *** add *)

Definition add (a b : number) : async ToolResult :=
  ret {| content := [ {| type := js "text";
                         text := JsNumber.toString (JsNumber.add a b) |} ] |}.

(** *** calculate *)

Inductive Operation := op_add | op_subtract | op_multiply | op_divide.

(** The [switch] computes [result], except that [divide] returns early on
    [b === 0]. *)
Definition calculate (operation : Operation) (a b : number) : async ToolResult :=
  let finish (result : number) : async ToolResult :=
    ret {| content := [ {| type := js "text"; text := JsNumber.toString result |} ] |} in
  match operation with
  | op_add => finish (JsNumber.add a b)
  | op_subtract => finish (JsNumber.sub a b)
  | op_multiply => finish (JsNumber.mul a b)
  | op_divide =>
      if strictEquals b (ofZ 0)
      then ret {| content := [ {| type := js "text";
                                  text := js "Error: Cannot divide by zero" |} ] |}
      else finish (JsNumber.div a b)
  end.

(** *** The registry built by [init] *)

(** A call of one of the six tools that go to the upstream. *)
Inductive RemoteCall :=
| call_get_product_by_sku (sku : jsstring)
| call_get_products_by_ids (ids : jsstring)
| call_search_products (args : SearchArgs)
| call_get_product_categories (sku : jsstring)
| call_get_bestsellers (args : BestsellersArgs)
| call_get_revenue (args : RevenueArgs).

Inductive ToolCall :=
| remote (c : RemoteCall)
| call_add (a b : number)
| call_calculate (operation : Operation) (a b : number).

Definition remote_try (c : RemoteCall) (headers : option object) : async ToolResult :=
  match c with
  | call_get_product_by_sku sku => get_product_by_sku_try sku headers
  | call_get_products_by_ids ids => get_products_by_ids_try ids headers
  | call_search_products args => search_products_try args headers
  | call_get_product_categories sku => get_product_categories_try sku headers
  | call_get_bestsellers args => get_bestsellers_try args headers
  | call_get_revenue args => get_revenue_try args headers
  end.

Definition remote_handler (c : RemoteCall) (headers : option object) : async ToolResult :=
  match c with
  | call_get_product_by_sku sku => get_product_by_sku sku headers
  | call_get_products_by_ids ids => get_products_by_ids ids headers
  | call_search_products args => search_products args headers
  | call_get_product_categories sku => get_product_categories sku headers
  | call_get_bestsellers args => get_bestsellers args headers
  | call_get_revenue args => get_revenue args headers
  end.

(** The handler the server runs for a validated call; the two arithmetic
    handlers ignore the per-call headers. *)
Definition handler (c : ToolCall) (headers : option object) : async ToolResult :=
  match c with
  | remote r => remote_handler r headers
  | call_add a b => add a b
  | call_calculate operation a b => calculate operation a b
  end.

End MyMCP.


(** * Vocabulary of the statements *)

(** ** The request forwarder *)

Module Forwarder.
Import JsString JsNumber JsError Fetch MyMCP.

Definition missingHeaders : error :=
  newError (js "Missing required headers: x-magento-domain and authorization").

(** The re-wrapping done by the [catch] clause of [makeApiCall]. *)
Definition rewrap (e : error) : error :=
  newError (js "API call error: " ++ message e).

Definition rewrapped {A} (c : completion A) : completion A :=
  match c with
  | Normal a => Normal a
  | Throw e => Throw (rewrap e)
  end.

(** The token computed for a credential. *)
Definition bearer (credential : jsstring) : jsstring :=
  if startsWith credential (js "Bearer ") then credential
  else js "Bearer " ++ credential.

(** The request [makeApiCall] issues once both headers are there. *)
Definition requestFor (endpoint method : jsstring) (data : JSON.value)
    (h : option object) (domain credential : jsstring) : FetchCall :=
  (domain ++ js "/rest/V1/" ++ endpoint,
   {| method := method;
      headers :=
        default ∅ h ∪
        <[js "Authorization" := bearer credential]>
          (<[js "Content-Type" := js "application/json"]>
             {[js "Accept" := js "application/json"]});
      body :=
        if JSON.toBoolean data && negb (JsString.eqb method (js "GET"))
        then Some (JSON.stringify data 0)
        else None |}).

Definition failedMessage (r : Response) (errorText : jsstring) : jsstring :=
  js "API call failed: " ++ JsNumber.toString (ofZ (Z.of_N (status r))) ++
  js " " ++ statusText r ++ js " - " ++ errorText.

(** What the [try] block of [makeApiCall] completes with once [fetch] has
    settled. *)
Definition afterFetch (settled : completion Response) : completion JSON.value :=
  match settled with
  | Throw e => Throw e
  | Normal r =>
      if ok r then json r
      else match Fetch.text r with
           | Normal errorText => Throw (newError (failedMessage r errorText))
           | Throw e => Throw e
           end
  end.

(** Both headers are there and truthy. *)
Definition supplied (h : option object) (domain credential : jsstring) : Prop :=
  get h (js "x-magento-domain") = Some domain /\ truthy domain = true /\
  get h (js "authorization") = Some credential /\ truthy credential = true.

(** One of the two headers is absent (or, being empty, falsy). *)
Definition lacking (h : option object) : Prop :=
  toBoolean (get h (js "x-magento-domain")) = false \/
  toBoolean (get h (js "authorization")) = false.

(** The URL of every request in a trace. *)
Definition urlsRequested (trace : list FetchCall) : list jsstring := map fst trace.

End Forwarder.

(** ** The headers a request carries *)

(** [fetch] does not send the [headers] object as it is: it builds a
    [Headers] list from it, appending one entry per property in property
    order, and a header name stands for every entry whose name matches it
    without regard to ASCII case; their values are joined with a comma and
    a space.  Two properties that differ only in case, such as
    [Authorization] and [authorization], therefore end up in one header. *)

Module Wire.
Import JsString Fetch.

Definition asciiLower (c : N) : N :=
  if (0x41 <=? c) && (c <=? 0x5A) then c + 0x20 else c.

(** Header names match byte-case-insensitively. *)
Definition sameName (a b : jsstring) : bool :=
  JsString.eqb (map asciiLower a) (map asciiLower b).

(** The property names written out in the object literal of [makeApiCall];
    they come before the properties the spread adds, and a spread property
    of exactly the same spelling takes the place of the literal one. *)
Definition literalNames : list jsstring :=
  [js "Authorization"; js "Content-Type"; js "Accept"].

Definition isLiteral (k : jsstring) : bool := existsb (JsString.eqb k) literalNames.

(** The values that the header list built from the headers object of a
    request of [makeApiCall] holds for the header [name]: that of the
    literal property of that name first, then those of the spread
    properties of that name.  (The map keeps no order among several spread
    properties that differ only in case; headers that the runtime adds on
    its own are not part of the list.) *)
Definition carried (name : jsstring) (init : RequestInit) : list jsstring :=
  omap (fun k => if sameName k name then Fetch.headers init !! k else None) literalNames ++
  map snd
    (List.filter (fun kv => sameName (fst kv) name && negb (isLiteral (fst kv)))
       (map_to_list (Fetch.headers init))).

(** [request.headers.get(name)]. *)
Definition headerValue (name : jsstring) (init : RequestInit) : option jsstring :=
  match carried name init with
  | [] => None
  | values => Some (JSON.join (js ", ") values)
  end.

End Wire.

(** ** The tools *)

Module Tools.
Import JsString JsNumber JsError Fetch MyMCP Forwarder.

(** A result with one text block. *)
Definition textResult (t : jsstring) : ToolResult :=
  {| content := [ {| type := js "text"; text := t |} ] |}.

(** The [catch] clause the six remote handlers share. *)
Definition catchError (error : error) : async ToolResult :=
  ret (textResult (js "Error: " ++ message error)).

(** The tail the six [try] blocks share: call the forwarder with GET and
    no body, render the result. *)
Definition callAndRender (endpoint : jsstring) (headers : option object)
    : async ToolResult :=
  let* result := makeApiCall endpoint (js "GET") JSON.JNull headers in
  ret (textResult (JSON.stringify result 2)).

Definition rendered (c : completion JSON.value) : completion ToolResult :=
  match c with
  | Normal result => Normal (textResult (JSON.stringify result 2))
  | Throw e => Throw e
  end.

(** The endpoint a remote call asks for, when it can be built. *)
Definition endpointOf (c : RemoteCall) : completion jsstring :=
  match c with
  | call_get_product_by_sku sku =>
      match Uri.encodeURIComponent sku with
      | Normal e => Normal (js "mcpdata/product/sku/" ++ e)
      | Throw e => Throw e
      end
  | call_get_products_by_ids ids =>
      match Uri.encodeURIComponent ids with
      | Normal e => Normal (js "mcpdata/products/ids/" ++ e)
      | Throw e => Throw e
      end
  | call_search_products args =>
      Normal (js "mcpdata/products/search?" ++ Uri.serialize (search_products_params args))
  | call_get_product_categories sku =>
      match Uri.encodeURIComponent sku with
      | Normal e => Normal (js "mcpdata/product/categories/" ++ e)
      | Throw e => Throw e
      end
  | call_get_bestsellers args =>
      Normal (js "mcpdata/bestsellers?" ++ Uri.serialize (get_bestsellers_params args))
  | call_get_revenue args =>
      Normal (js "mcpdata/revenue?" ++ Uri.serialize (get_revenue_params args))
  end.

(** The string argument that goes through [encodeURIComponent] has no
    unpaired surrogate (the other three tools have no such argument). *)
Definition encodable (c : RemoteCall) : bool :=
  match c with
  | call_get_product_by_sku s
  | call_get_products_by_ids s
  | call_get_product_categories s => isWellFormed s
  | _ => true
  end.

(** The text a remote handler answers with when a header is lacking. *)
Definition lackingText (c : RemoteCall) : jsstring :=
  if encodable c
  then js "Error: API call error: Missing required headers: x-magento-domain and authorization"
  else js "Error: URI malformed".

End Tools.

(** ** Concrete inputs *)

Module Scenario.
Import JsString JsNumber JsError Fetch MyMCP.

(** A network that refuses every connection. *)
Definition unreachable : Network :=
  fun _ _ => Throw {| name := TypeError; message := js "fetch failed" |}.

(** Per-call headers with a domain and a bare credential. *)
Definition shopHeaders : object :=
  <[js "x-magento-domain" := js "https://shop.example"]>
    {[js "authorization" := js "abc123"]}.

(** The JSON value [{"sku": "24-MB01", "price": 34, "tags": []}]. *)
Definition product : JSON.value :=
  JSON.JObject
    [ (js "sku", JSON.JString (js "24-MB01"));
      (js "price", JSON.JNumber (ofZ 34));
      (js "tags", JSON.JArray []) ].

(** An upstream that answers every request with [200 OK] and [product]. *)
Definition upstreamOk : Network :=
  fun _ _ =>
    Normal {| status := 200; statusText := js "OK";
              Fetch.text := Normal (JSON.stringify product 0);
              json := Normal product |}.

(** A [404 Not Found] whose body is the text [not found]. *)
Definition notFound : Response :=
  {| status := 404; statusText := js "Not Found";
     Fetch.text := Normal (js "not found");
     json := Throw {| name := SyntaxError;
                      message := js "Unexpected token o in JSON at position 1" |} |}.

Definition upstream404 : Network := fun _ _ => Normal notFound.

(** The integers from [lo], [n] of them. *)
Definition integersFrom (lo : Z) (n : nat) : list Z :=
  map (fun i => (lo + Z.of_nat i)%Z) (seq 0 n).

End Scenario.

(** * Further vocabulary *)

(** ** Shapes of strings *)

Module Shapes.
Import JsString.

(** Every element is a 16-bit code unit, as in any JavaScript string. *)
Definition codeUnits (s : jsstring) : Prop := Forall (fun c => c < 0x10000) s.

(** What a path segment written by [encodeURIComponent] is made of: the
    unreserved characters and the percent sign. *)
Definition segmentChar (c : N) : bool := Uri.uriUnescaped c || (c =? 0x25).

(** The characters the form serializer leaves alone. *)
Definition formSafe (c : N) : bool :=
  isAsciiAlphanumeric c || existsb (N.eqb c) (js "*-._").

(** A space becomes a plus sign. *)
Definition plusForSpace (c : N) : N := if c =? 0x20 then 0x2B else c.

(** [s.split(sep)] for a separator of one code unit. *)
Fixpoint splitOn (sep : N) (s : jsstring) : list jsstring :=
  match s with
  | [] => [[]]
  | c :: s' =>
      if c =? sep then [] :: splitOn sep s'
      else match splitOn sep s' with
           | piece :: rest => (c :: piece) :: rest
           | [] => [[c]]
           end
  end.

(** The tools that put an argument into the path: the fixed part of the
    endpoint and the argument. *)
Definition pathArgument (c : MyMCP.RemoteCall) : option (jsstring * jsstring) :=
  match c with
  | MyMCP.call_get_product_by_sku sku => Some (js "mcpdata/product/sku/", sku)
  | MyMCP.call_get_products_by_ids ids => Some (js "mcpdata/products/ids/", ids)
  | MyMCP.call_get_product_categories sku => Some (js "mcpdata/product/categories/", sku)
  | _ => None
  end.

(** The [&status=...] that ends a query string when a status is given and
    not empty. *)
Definition statusSuffix (status : option jsstring) : jsstring :=
  match status with
  | Some s => if truthy s then js "&status=" ++ Uri.urlencoded (Uri.toUSVString s) else []
  | None => []
  end.

(** The name-value pieces a list of parameters is written as. *)
Definition pieces (params : Uri.URLSearchParams) : list (list jsstring) :=
  map (fun kv => [Uri.urlencoded (fst kv); Uri.urlencoded (snd kv)]) params.

(** The path segments a URL parser reads as [.] and [..] (URL standard,
    single-dot and double-dot path segment): the two themselves and their
    spellings with [%2e], in either case. *)
Definition dotSegments : list jsstring :=
  [js "."; js "%2e"; js "%2E";
   js ".."; js ".%2e"; js ".%2E"; js "%2e."; js "%2E.";
   js "%2e%2e"; js "%2e%2E"; js "%2E%2e"; js "%2E%2E"].

Definition isDotSegment (s : jsstring) : bool := existsb (JsString.eqb s) dotSegments.

(** The status a handler appends: one that is given and not empty. *)
Definition givenStatus (status : option jsstring) : option jsstring :=
  match status with
  | Some s => if truthy s then Some s else None
  | None => None
  end.

(** An optional argument that, when given, is a string of 16-bit code
    units without unpaired surrogates. *)
Definition wellFormed (s : option jsstring) : Prop :=
  match s with
  | Some s => codeUnits s /\ isWellFormed s = true
  | None => True
  end.

End Shapes.

(** ** Reading the encodings back *)

Module Decoding.
Import JsString.

(** The value of a hexadecimal digit. *)
Definition hexVal (c : N) : N :=
  if (0x30 <=? c) && (c <=? 0x39) then c - 0x30
  else if (0x41 <=? c) && (c <=? 0x46) then c - 0x41 + 10
  else c - 0x61 + 10.

(** Undoes the percent-escapes of a URI component; every other code
    unit stands for the byte of its own value. *)
Fixpoint unescape (s : jsstring) : list N :=
  match s with
  | [] => []
  | c :: rest =>
      if c =? 0x25 then
        match rest with
        | hi :: lo :: rest' => (hexVal hi * 16 + hexVal lo) :: unescape rest'
        | _ => c :: unescape rest
        end
      else c :: unescape rest
  end.

(** The same for a form-encoded string, where a plus sign is a space. *)
Fixpoint unescapeForm (s : jsstring) : list N :=
  match s with
  | [] => []
  | c :: rest =>
      if c =? 0x25 then
        match rest with
        | hi :: lo :: rest' => (hexVal hi * 16 + hexVal lo) :: unescapeForm rest'
        | _ => c :: unescapeForm rest
        end
      else if c =? 0x2B then 0x20 :: unescapeForm rest
      else c :: unescapeForm rest
  end.

(** Reads scalar values from UTF-8. *)
Fixpoint utf8decode (bs : list N) : list N :=
  match bs with
  | [] => []
  | b0 :: r0 =>
      if b0 <? 0x80 then b0 :: utf8decode r0
      else if b0 <? 0xE0 then
        match r0 with
        | b1 :: r1 => ((b0 - 0xC0) * 0x40 + (b1 - 0x80)) :: utf8decode r1
        | _ => [b0]
        end
      else if b0 <? 0xF0 then
        match r0 with
        | b1 :: b2 :: r2 =>
            ((b0 - 0xE0) * 0x1000 + (b1 - 0x80) * 0x40 + (b2 - 0x80)) :: utf8decode r2
        | _ => [b0]
        end
      else
        match r0 with
        | b1 :: b2 :: b3 :: r3 =>
            ((b0 - 0xF0) * 0x40000 + (b1 - 0x80) * 0x1000 + (b2 - 0x80) * 0x40 + (b3 - 0x80))
              :: utf8decode r3
        | _ => [b0]
        end
  end.

(** The string a sequence of scalar values stands for. *)
Definition fromScalars (cps : list N) : jsstring := flat_map JSON.utf16 cps.

(** The readers of a path segment and of a form-encoded value. *)
Definition decodeComponent (s : jsstring) : jsstring :=
  fromScalars (utf8decode (unescape s)).

Definition decodeForm (s : jsstring) : jsstring :=
  fromScalars (utf8decode (unescapeForm s)).

End Decoding.

(** * Properties *)

(** ** Strings *)

Module JsStringFacts.
Import JsString.

Lemma eqb_eq (s t : jsstring) : JsString.eqb s t = true -> s = t.
Proof.
  revert t. induction s as [|c s IH]; intros [|d t]; simpl; try discriminate.
  - reflexivity.
  - intros H. apply andb_true_iff in H as [Hc Hs].
    apply N.eqb_eq in Hc. now rewrite Hc, (IH t Hs).
Qed.

Lemma startsWith_app (s rest : jsstring) : startsWith (s ++ rest) s = true.
Proof.
  induction s as [|c s IH]; simpl; [reflexivity|].
  now rewrite N.eqb_refl, IH.
Qed.

Lemma includes_here (s sub : jsstring) :
  startsWith s sub = true -> includes s sub = true.
Proof. destruct s; simpl; intros ->; reflexivity. Qed.

Lemma includes_later (c : N) (s sub : jsstring) :
  includes s sub = true -> includes (c :: s) sub = true.
Proof. simpl. intros ->. apply orb_true_r. Qed.

(** A string includes what it starts with, *)
Lemma includes_prefix (s after : jsstring) : includes (s ++ after) s = true.
Proof. apply includes_here, startsWith_app. Qed.

(** itself, *)
Lemma includes_self (s : jsstring) : includes s s = true.
Proof. rewrite <- (app_nil_r s) at 1. apply includes_prefix. Qed.

(** and whatever a suffix of it includes. *)
Lemma includes_skip (before s sub : jsstring) :
  includes s sub = true -> includes (before ++ s) sub = true.
Proof.
  intros H. induction before as [|c before IH]; [exact H|].
  now apply includes_later.
Qed.

Create HintDb includes discriminated.
#[export] Hint Resolve includes_prefix includes_self includes_skip : includes.

End JsStringFacts.

(** ** The built-in functions on concrete inputs *)

Module BuiltinExamples.
Import JsString JsNumber JsError.
Local Open Scope Z_scope.

Example toString_integer : toString (ofZ 404) = js "404".
Proof. reflexivity. Qed.

Example toString_negative : toString (ofZ (-17)) = js "-17".
Proof. reflexivity. Qed.

Example toString_fraction : toString (div (ofZ 3) (ofZ 2)) = js "1.5".
Proof. reflexivity. Qed.

Example toString_inexact_sum :
  toString (add (div (ofZ 1) (ofZ 10)) (div (ofZ 2) (ofZ 10))) = js "0.30000000000000004".
Proof. vm_compute. reflexivity. Qed.

Example toString_exponent : toString (ofZ (10 ^ 21)) = js "1e+21".
Proof. vm_compute. reflexivity. Qed.

Example toString_small : toString (div (ofZ 1) (ofZ 10000000)) = js "1e-7".
Proof. vm_compute. reflexivity. Qed.

Example toString_overflow : toString (div (ofZ 1) (ofZ 0)) = js "Infinity".
Proof. reflexivity. Qed.

Example encodeURIComponent_reserved :
  Uri.encodeURIComponent (js "24-MB01 a/b?c=d&e") = Normal (js "24-MB01%20a%2Fb%3Fc%3Dd%26e").
Proof. reflexivity. Qed.

(** U+00E9 and the pair for U+1F600. *)
Example encodeURIComponent_utf8 :
  Uri.encodeURIComponent [0xE9; 0xD83D; 0xDE00]%N = Normal (js "%C3%A9%F0%9F%98%80").
Proof. reflexivity. Qed.

Example encodeURIComponent_lone_trail :
  Uri.encodeURIComponent (js "a" ++ [0xDC00]%N) =
    Throw {| name := URIError; message := js "URI malformed" |}.
Proof. reflexivity. Qed.

Example serialize_form :
  Uri.serialize (Uri.newURLSearchParams [(js "q", js "a b&c~"); (js "n", js "")]) =
    js "q=a+b%26c%7E&n=".
Proof. reflexivity. Qed.

(** [{"a": 1, "b": [true, null]}] on five lines. *)
Example stringify_indented :
  JSON.stringify
    (JSON.JObject [ (js "a", JSON.JNumber (ofZ 1));
                    (js "b", JSON.JArray [JSON.JBool true; JSON.JNull]) ]) 2 =
    (js "{" ++ [0x0A] ++
     js "  " ++ [0x22] ++ js "a" ++ [0x22] ++ js ": 1," ++ [0x0A] ++
     js "  " ++ [0x22] ++ js "b" ++ [0x22] ++ js ": [" ++ [0x0A] ++
     js "    true," ++ [0x0A] ++
     js "    null" ++ [0x0A] ++
     js "  ]" ++ [0x0A] ++
     js "}")%N.
Proof. reflexivity. Qed.

Example stringify_compact :
  JSON.stringify (JSON.JArray [JSON.JNumber (ofZ 1); JSON.JArray []; JSON.JObject []]) 0 =
    js "[1,[],{}]".
Proof. reflexivity. Qed.

(** An object is rendered property by property, in the order it lists
    them. *)
Example serialize_members (gap indent : jsstring) (props : list (jsstring * JSON.value)) :
  JSON.serialize gap indent (JSON.JObject props) =
    JSON.enclose (js "{") (js "}") gap indent (indent ++ gap)
      (map (fun kv =>
              JSON.quote (fst kv) ++ js ":" ++
              match gap with [] => [] | _ :: _ => js " " end ++
              JSON.serialize gap (indent ++ gap) (snd kv)) props).
Proof.
  cbn [JSON.serialize]. f_equal. apply map_ext. now intros [k p].
Qed.

End BuiltinExamples.

(** ** Numbers *)

Module JsNumberFacts.
Import JsString JsNumber Scenario JsStringFacts.
Local Open Scope Z_scope.

(** Checked by evaluation: every status code up to 999 is printed as its
    decimal digits. *)
Lemma statusCodes_checked :
  forallb (fun n => JsString.eqb (toString (ofZ (Z.of_nat n))) (decimal (Z.of_nat n)))
    (seq 0 1000) = true.
Proof. vm_compute. reflexivity. Qed.

Lemma toString_status (n : N) :
  (n < 1000)%N -> toString (ofZ (Z.of_N n)) = decimal (Z.of_N n).
Proof.
  intros Hn. pose proof (proj1 (forallb_forall _ _) statusCodes_checked) as H.
  specialize (H (N.to_nat n)). cbv beta in H. rewrite N_nat_Z in H.
  apply eqb_eq, H, in_seq. lia.
Qed.

(** Checked by evaluation: the sum of two integers between -50 and 50 is
    printed as its decimal numeral. *)
Lemma smallSums_checked :
  forallb (fun a =>
    forallb (fun b =>
      JsString.eqb (toString (add (ofZ a) (ofZ b))) (signedDecimal (a + b)))
      (integersFrom (-50) 101))
    (integersFrom (-50) 101) = true.
Proof. vm_compute. reflexivity. Qed.

Lemma in_integersFrom (lo z : Z) (n : nat) :
  lo <= z < lo + Z.of_nat n -> In z (integersFrom lo n).
Proof.
  intros H. unfold integersFrom. apply in_map_iff.
  exists (Z.to_nat (z - lo)). split; [lia|]. apply in_seq. lia.
Qed.

(** Small integers add exactly and print as integers. *)
Lemma toString_small_sum (a b : Z) :
  -50 <= a <= 50 -> -50 <= b <= 50 ->
  toString (add (ofZ a) (ofZ b)) = signedDecimal (a + b).
Proof.
  intros Ha Hb. pose proof (proj1 (forallb_forall _ _) smallSums_checked) as H.
  assert (In a (integersFrom (-50) 101)) as Hin by (apply in_integersFrom; lia).
  specialize (H a Hin). cbv beta in H.
  pose proof (proj1 (forallb_forall _ _) H) as H'.
  apply eqb_eq, H', in_integersFrom. lia.
Qed.

(** [b === 0] holds exactly for the two zeros. *)
Lemma strictEquals_zero (b : number) :
  strictEquals b (ofZ 0) = true <-> exists s, b = S754_zero s.
Proof.
  split.
  - destruct b as [s|s| |s m e]; try (now exists s); try discriminate.
    + now destruct s.
    + now destruct s.
  - now intros [s ->].
Qed.

End JsNumberFacts.

(** ** [encodeURIComponent] *)

Module UriFacts.
Import JsString JsError Uri.

Lemma encode_scalars (cps : list codepoint) :
  forallb isScalar cps = true -> exists out, encode cps = Normal out.
Proof.
  induction cps as [|[cp|u] cps IH]; simpl; intros H.
  - now exists [].
  - destruct (IH H) as [r ->]. eauto.
  - discriminate.
Qed.

Lemma encode_unpaired (cps : list codepoint) :
  forallb isScalar cps = false ->
  encode cps = Throw {| name := URIError; message := js "URI malformed" |}.
Proof.
  induction cps as [|[cp|u] cps IH]; simpl; intros H.
  - discriminate.
  - now rewrite (IH H).
  - reflexivity.
Qed.

(** [encodeURIComponent] returns exactly on the well-formed strings. *)
Lemma encodeURIComponent_wellFormed (s : jsstring) :
  isWellFormed s = true -> exists out, encodeURIComponent s = Normal out.
Proof. apply encode_scalars. Qed.

Lemma encodeURIComponent_malformed (s : jsstring) :
  isWellFormed s = false ->
  encodeURIComponent s = Throw {| name := URIError; message := js "URI malformed" |}.
Proof. apply encode_unpaired. Qed.

End UriFacts.

(** ** The request forwarder *)

Module ForwarderFacts.
Import JsString JsNumber JsError Fetch MyMCP Forwarder.

Lemma Throw_inj {A} (e e' : error) : @Throw A e = Throw e' -> e = e'.
Proof. now intros [=]. Qed.

(** Splits an equation between two outcomes without reducing its sides. *)
Ltac split_outcome H :=
  apply pair_equal_spec in H; destruct H as [? ?].

Lemma supplied_or_lacking (h : option object) :
  lacking h \/ exists domain credential, supplied h domain credential.
Proof.
  unfold lacking, supplied.
  destruct (get h (js "x-magento-domain")) as [d|]; simpl; [|now left; left].
  destruct (get h (js "authorization")) as [c|]; simpl; [|now left; right].
  destruct (truthy d) eqn:Hd; [|now left; left].
  destruct (truthy c) eqn:Hc; [|now left; right].
  right. now exists d, c.
Qed.

Section Call.

Variable net : Network.
Variables endpoint method : jsstring.
Variable data : JSON.value.
Variable h : option object.
Variable trace : list FetchCall.

Lemma makeApiCall_try_lacking :
  lacking h ->
  makeApiCall_try endpoint method data h net trace = (Throw missingHeaders, trace).
Proof.
  unfold lacking, makeApiCall_try.
  destruct (get h (js "x-magento-domain")) as [d|]; simpl;
    destruct (get h (js "authorization")) as [c|]; simpl;
    try reflexivity.
  intros [-> | ->]; simpl; [reflexivity|].
  now rewrite orb_true_r.
Qed.

Lemma makeApiCall_try_supplied domain credential :
  supplied h domain credential ->
  let call := requestFor endpoint method data h domain credential in
  makeApiCall_try endpoint method data h net trace =
    (afterFetch (net (fst call) (snd call)), trace ++ [call]).
Proof.
  intros (Hd & Td & Hc & Tc). simpl.
  unfold makeApiCall_try. rewrite Hd, Hc, Td, Tc. simpl.
  unfold Fetch.bind, fetch, bearer.
  destruct (net _ _) as [r|e]; simpl; [|reflexivity].
  destruct (ok r); simpl; [reflexivity|].
  unfold await, throw, failedMessage. now destruct (Fetch.text r).
Qed.

(** Without the headers [makeApiCall] throws at once and the trace is
    untouched. *)
Lemma makeApiCall_lacking :
  lacking h ->
  makeApiCall endpoint method data h net trace = (Throw (rewrap missingHeaders), trace).
Proof.
  intros H. unfold makeApiCall, try_catch.
  now rewrite makeApiCall_try_lacking.
Qed.

(** With them it makes exactly one request. *)
Lemma makeApiCall_supplied domain credential :
  supplied h domain credential ->
  let call := requestFor endpoint method data h domain credential in
  makeApiCall endpoint method data h net trace =
    (rewrapped (afterFetch (net (fst call) (snd call))), trace ++ [call]).
Proof.
  intros H. simpl. unfold makeApiCall, try_catch.
  rewrite (makeApiCall_try_supplied _ _ H). simpl.
  now destruct (afterFetch _).
Qed.

End Call.

End ForwarderFacts.

(** ** The tool handlers *)

Module HandlerFacts.
Import JsString JsNumber JsError Fetch MyMCP Forwarder Tools.
Import UriFacts ForwarderFacts.

Lemma callAndRender_lacking endpoint h net trace :
  lacking h ->
  callAndRender endpoint h net trace = (Throw (rewrap missingHeaders), trace).
Proof.
  intros H. unfold callAndRender, Fetch.bind.
  now rewrite makeApiCall_lacking.
Qed.

Lemma callAndRender_supplied endpoint h domain credential net trace :
  supplied h domain credential ->
  let call := requestFor endpoint (js "GET") JSON.JNull h domain credential in
  callAndRender endpoint h net trace =
    (rendered (rewrapped (afterFetch (net (fst call) (snd call)))), trace ++ [call]).
Proof.
  intros H. simpl. unfold callAndRender, Fetch.bind.
  rewrite (makeApiCall_supplied _ _ _ _ _ _ _ _ H). simpl.
  now destruct (rewrapped _).
Qed.

(** Every remote handler is its [try] block under the shared [catch]. *)
Lemma remote_handler_try_catch (c : RemoteCall) (h : option object) :
  remote_handler c h = try_catch (remote_try c h) catchError.
Proof. now destruct c. Qed.

(** A [try] block builds its endpoint and hands it to the shared tail. *)
Lemma remote_try_endpoint (c : RemoteCall) (h : option object) net trace :
  remote_try c h net trace =
    match endpointOf c with
    | Normal endpoint => callAndRender endpoint h net trace
    | Throw e => (Throw e, trace)
    end.
Proof.
  destruct c; simpl; try reflexivity;
    unfold get_product_by_sku_try, get_products_by_ids_try,
      get_product_categories_try, Fetch.bind, await;
    now destruct (Uri.encodeURIComponent _).
Qed.

Lemma endpointOf_encodable (c : RemoteCall) :
  encodable c = true -> exists endpoint, endpointOf c = Normal endpoint.
Proof.
  destruct c; simpl; intros H; eauto;
    destruct (encodeURIComponent_wellFormed _ H) as [e ->]; eauto.
Qed.

Lemma endpointOf_malformed (c : RemoteCall) :
  encodable c = false ->
  endpointOf c = Throw {| name := URIError; message := js "URI malformed" |}.
Proof.
  destruct c; simpl; intros H; try discriminate;
    now rewrite (encodeURIComponent_malformed _ H).
Qed.

(** A [try] block that completes normally yields one text block. *)
Lemma remote_try_normal (c : RemoteCall) (h : option object) net trace a trace' :
  remote_try c h net trace = (Normal a, trace') -> exists t, a = textResult t.
Proof.
  rewrite remote_try_endpoint.
  destruct (endpointOf c) as [endpoint|e]; [|discriminate].
  unfold callAndRender, Fetch.bind.
  destruct (makeApiCall _ _ _ _ _ _) as [[v|e] tr]; simpl; intros [= <- _]; eauto.
Qed.

(** With both headers there, a remote handler whose endpoint can be built
    requests the domain, [/rest/V1/] and the endpoint, once. *)
Lemma remote_handler_url (net : Network) (c : RemoteCall) (h : option object)
    (domain credential endpoint : jsstring) :
  supplied h domain credential ->
  endpointOf c = Normal endpoint ->
  urlsRequested (snd (run net (remote_handler c h))) =
    [domain ++ js "/rest/V1/" ++ endpoint].
Proof.
  intros S E. rewrite remote_handler_try_catch. unfold run, try_catch.
  rewrite remote_try_endpoint, E.
  rewrite (callAndRender_supplied _ _ _ _ _ _ S).
  now destruct (rendered _).
Qed.

End HandlerFacts.

(** * The claims *)

Module Claims.
Import JsString JsNumber JsError Fetch MyMCP Forwarder Tools Scenario.
Import JsStringFacts JsNumberFacts UriFacts ForwarderFacts HandlerFacts.

(** C1, as the code has it.  When the per-call headers lack the domain or
    the credential (or hold an empty string for it), every remote handler
    returns one text block and no [fetch] is attempted.  The text is
    [Error: API call error: Missing required headers: ...], which contains
    "Missing required headers", whenever the endpoint can be built; for the
    three tools that pass their argument through [encodeURIComponent] and an
    argument with an unpaired surrogate, the text is that of the URIError
    thrown before the forwarder is reached. *)
Theorem missing_headers_no_fetch (net : Network) (c : RemoteCall) (h : option object) :
  lacking h ->
  run net (remote_handler c h) = (Normal (textResult (lackingText c)), []) /\
  (encodable c = true ->
   includes (lackingText c) (js "Missing required headers") = true).
Proof.
  intros H. split.
  - rewrite remote_handler_try_catch. unfold run, try_catch, lackingText.
    rewrite remote_try_endpoint.
    destruct (encodable c) eqn:E.
    + destruct (endpointOf_encodable c E) as [endpoint ->].
      now rewrite callAndRender_lacking.
    + now rewrite (endpointOf_malformed c E).
  - unfold lackingText. now intros ->.
Qed.

Lemma missing_headers_no_fetch_witness :
  run unreachable (remote_handler (call_get_product_by_sku (js "24-MB01")) (Some ∅)) =
    (Normal (textResult
       (js "Error: API call error: Missing required headers: x-magento-domain and authorization")),
     []) /\
  includes
    (js "Error: API call error: Missing required headers: x-magento-domain and authorization")
    (js "Missing required headers") = true.
Proof.
  destruct (missing_headers_no_fetch unreachable
              (call_get_product_by_sku (js "24-MB01")) (Some ∅)) as [H1 H2].
  - left. reflexivity.
  - split; [exact H1 | exact (H2 eq_refl)].
Defined.

(** C1 as stated fails: [get_product_by_sku] called without headers on a
    SKU that is a lone lead surrogate answers [Error: URI malformed]. *)
Lemma missing_headers_counterexample :
  get None (js "x-magento-domain") = None /\
  run unreachable (remote_handler (call_get_product_by_sku [0xD800]) None) =
    (Normal (textResult (js "Error: URI malformed")), []) /\
  includes (js "Error: URI malformed") (js "Missing required headers") = false.
Proof. repeat split. Qed.

(** C2.  Every handler, on every validated call, every headers object and
    every network, completes normally with exactly one content block of
    type "text"; and when the [try] block of a remote handler throws an
    error, from the forwarder or from building the endpoint, the text of
    that block is [Error: ] followed by the error's message. *)
Theorem handlers_return_text (net : Network) (c : ToolCall) (h : option object) :
  exists t trace,
    run net (handler c h) =
      (Normal {| content := [ {| type := js "text"; text := t |} ] |}, trace) /\
    forall r e trace',
      c = remote r ->
      run net (remote_try r h) = (Throw e, trace') ->
      t = js "Error: " ++ message e.
Proof.
  destruct c as [r | a b | operation a b].
  - simpl. rewrite remote_handler_try_catch. unfold run, try_catch.
    destruct (remote_try r h net []) as [[a|e] trace] eqn:E.
    + destruct (remote_try_normal _ _ _ _ _ _ E) as [t ->].
      exists t, trace. split; [reflexivity|].
      intros r' e' trace' [= <-]. rewrite E. discriminate.
    + exists (js "Error: " ++ message e), trace. split; [reflexivity|].
      intros r' e' trace' [= <-]. rewrite E. now intros [= <- _].
  - eexists _, _. split; [reflexivity | discriminate].
  - destruct operation; unfold run, handler, calculate;
      try destruct (strictEquals b _);
      eexists _, _; (split; [reflexivity | discriminate]).
Qed.

Lemma handlers_return_text_witness :
  exists t trace,
    run unreachable (handler (remote (call_get_product_by_sku (js "24-MB01")))
                       (Some shopHeaders)) =
      (Normal {| content := [ {| type := js "text"; text := t |} ] |}, trace) /\
    t = js "Error: API call error: fetch failed".
Proof.
  destruct (handlers_return_text unreachable
              (remote (call_get_product_by_sku (js "24-MB01"))) (Some shopHeaders))
    as (t & trace & Hrun & Hthrow).
  exists t, trace. split; [exact Hrun|].
  exact (Hthrow (call_get_product_by_sku (js "24-MB01"))
           {| name := Error; message := js "API call error: fetch failed" |}
           (snd (run unreachable
                   (remote_try (call_get_product_by_sku (js "24-MB01")) (Some shopHeaders))))
           eq_refl eq_refl).
Defined.

Lemma shopHeaders_supplied :
  supplied (Some shopHeaders) (js "https://shop.example") (js "abc123").
Proof. repeat split. Qed.

(** C3, evaluated on the per-call headers [x-magento-domain:
    https://shop.example] and [authorization: abc123].  The credential
    does not start with [Bearer ], and the headers object of the one
    request has the computed token [Bearer abc123] under [Authorization]
    and, from the spread, the raw credential [abc123] under
    [authorization].  The two properties are one header to [fetch], so the
    request's [Authorization] header is [Bearer abc123, abc123] and not
    [Bearer abc123]. *)
Theorem authorization_sent_twice :
  let trace :=
    snd (run unreachable
           (makeApiCall (js "mcpdata/revenue") (js "GET") JSON.JNull (Some shopHeaders))) in
  get (Some shopHeaders) (js "authorization") = Some (js "abc123") /\
  startsWith (js "abc123") (js "Bearer ") = false /\
  map (fun call => (Fetch.headers (snd call) !! js "Authorization",
                    Fetch.headers (snd call) !! js "authorization")) trace =
    [(Some (js "Bearer abc123"), Some (js "abc123"))] /\
  map (fun call => Wire.headerValue (js "Authorization") (snd call)) trace =
    [Some (js "Bearer abc123, abc123")] /\
  js "Bearer abc123, abc123" <> js "Bearer " ++ js "abc123".
Proof. repeat split. discriminate. Qed.

(** C4.  Whenever a remote handler made a request, the upstream answered
    it with a success status and the body parsed as the JSON value [v],
    the handler returns one text block whose text is
    [JSON.stringify(v, null, 2)]: the value itself, properties in their
    own order, indented by two spaces. *)
Theorem success_is_pretty_printed (net : Network) (c : RemoteCall)
    (h : option object) (result : completion ToolResult) (trace : list FetchCall)
    (url : jsstring) (init : RequestInit) (r : Response) (v : JSON.value) :
  run net (remote_handler c h) = (result, trace) ->
  In (url, init) trace ->
  net url init = Normal r ->
  ok r = true ->
  json r = Normal v ->
  result = Normal (textResult (JSON.stringify v 2)).
Proof.
  rewrite remote_handler_try_catch. unfold run, try_catch.
  rewrite remote_try_endpoint.
  destruct (endpointOf c) as [endpoint|e].
  - destruct (supplied_or_lacking h) as [L | (domain & credential & S)].
    + rewrite (callAndRender_lacking _ _ _ _ L).
      intros [= _ <-] [].
    + rewrite (callAndRender_supplied _ _ _ _ _ _ S).
      set (call := requestFor _ _ _ _ _ _).
      intros Hrun Hin Hnet Hok Hjson.
      assert (trace = [call]) as ->.
      { destruct (rendered _); unfold catchError, ret in Hrun; now injection Hrun. }
      destruct Hin as [Hin | []].
      assert (net (fst call) (snd call) = Normal r) as Hcall by now rewrite Hin.
      rewrite Hcall in Hrun. unfold afterFetch in Hrun.
      rewrite Hok, Hjson in Hrun. cbn [rendered rewrapped] in Hrun.
      now injection Hrun.
  - intros [= _ <-] [].
Qed.

Lemma success_is_pretty_printed_witness :
  fst (run upstreamOk (remote_handler (call_get_product_by_sku (js "24-MB01"))
                         (Some shopHeaders))) =
    Normal (textResult (JSON.stringify product 2)).
Proof.
  pose (out := run upstreamOk (remote_handler (call_get_product_by_sku (js "24-MB01"))
                                 (Some shopHeaders))).
  pose (call := requestFor (js "mcpdata/product/sku/24-MB01") (js "GET") JSON.JNull
                  (Some shopHeaders) (js "https://shop.example") (js "abc123")).
  refine (success_is_pretty_printed upstreamOk
            (call_get_product_by_sku (js "24-MB01")) (Some shopHeaders)
            (fst out) (snd out) (fst call) (snd call) _ product _ _ _ _ _).
  - reflexivity.
  - left. reflexivity.
  - reflexivity.
  - reflexivity.
  - reflexivity.
Defined.

(** C5.  When the forwarder made a request and the upstream answered it
    with a non-success status, the forwarder throws an [Error] whose
    message is [API call error: API call failed: ] followed by the status
    code (its decimal digits), a space, the status text, [ - ] and the body
    read as text, so the message contains each of the three.  And whatever
    the forwarder throws is an [Error] whose message is [API call error: ]
    followed by the message of the error its [try] block threw. *)
Theorem forwarder_failure_message (net : Network) (endpoint method : jsstring)
    (data : JSON.value) (h : option object) :
  (forall outcome trace url init r errorText,
      run net (makeApiCall endpoint method data h) = (outcome, trace) ->
      In (url, init) trace ->
      net url init = Normal r ->
      ok r = false ->
      Fetch.text r = Normal errorText ->
      let code := JsNumber.toString (ofZ (Z.of_N (status r))) in
      let msg :=
        js "API call error: " ++ js "API call failed: " ++ code ++ js " " ++
        statusText r ++ js " - " ++ errorText in
      outcome = Throw {| name := Error; message := msg |} /\
      includes msg code = true /\
      includes msg (statusText r) = true /\
      includes msg errorText = true /\
      ((status r < 1000)%N -> code = decimal (Z.of_N (status r)))) /\
  (forall e trace,
      run net (makeApiCall endpoint method data h) = (Throw e, trace) ->
      exists original,
        run net (makeApiCall_try endpoint method data h) = (Throw original, trace) /\
        name e = Error /\
        message e = js "API call error: " ++ message original /\
        startsWith (message e) (js "API call error: ") = true).
Proof.
  split.
  - intros outcome trace url init r errorText Hrun Hin Hnet Hok Htext code msg.
    assert (outcome = Throw {| name := Error; message := msg |}) as ->.
    { unfold run in Hrun.
      destruct (supplied_or_lacking h) as [L | (domain & credential & S)].
      - rewrite (makeApiCall_lacking _ _ _ _ _ _ L) in Hrun.
        split_outcome Hrun. subst trace. destruct Hin.
      - rewrite (makeApiCall_supplied _ _ _ _ _ _ _ _ S) in Hrun.
        set (call := requestFor _ _ _ _ _ _) in Hrun.
        split_outcome Hrun. subst outcome trace. destruct Hin as [Hin | []].
        assert (net (fst call) (snd call) = Normal r) as -> by now rewrite Hin.
        unfold afterFetch. now rewrite Hok, Htext. }
    split; [reflexivity|]. subst msg.
    repeat split; auto 8 with includes.
    apply toString_status.
  - intros e trace. unfold run, makeApiCall, try_catch.
    destruct (makeApiCall_try _ _ _ _ _ _) as [[v|original] trace'];
      [discriminate|].
    unfold throw. intros H. split_outcome H. subst trace'.
    match goal with He : Throw _ = Throw e |- _ => apply Throw_inj in He; subst e end.
    exists original.
    split; [reflexivity|]. split; [reflexivity|]. split; [reflexivity|].
    apply startsWith_app.
Qed.

Lemma forwarder_failure_message_witness :
  let msg := js "API call error: API call failed: 404 Not Found - not found" in
  fst (run upstream404
         (makeApiCall (js "mcpdata/product/sku/none") (js "GET") JSON.JNull
            (Some shopHeaders))) =
    Throw {| name := Error; message := msg |} /\
  includes msg (js "404") = true /\
  includes msg (js "Not Found") = true /\
  includes msg (js "not found") = true.
Proof.
  pose (prog := makeApiCall (js "mcpdata/product/sku/none") (js "GET") JSON.JNull
                  (Some shopHeaders)).
  pose (call := requestFor (js "mcpdata/product/sku/none") (js "GET") JSON.JNull
                  (Some shopHeaders) (js "https://shop.example") (js "abc123")).
  assert (run upstream404 prog = (fst (run upstream404 prog), snd (run upstream404 prog)))
    as Hrun by reflexivity.
  assert (In (fst call, snd call) (snd (run upstream404 prog))) as Hin
    by (left; reflexivity).
  destruct (proj1 (forwarder_failure_message upstream404 (js "mcpdata/product/sku/none")
                     (js "GET") JSON.JNull (Some shopHeaders))
              _ _ _ _ notFound (js "not found") Hrun Hin eq_refl eq_refl eq_refl)
    as (Hthrown & Hcode & Htext & Hbody & _).
  exact (conj Hthrown (conj Hcode (conj Htext Hbody))).
Defined.

(** C6.  [calculate] with operation [divide] and [b === 0] returns, for
    every [a], the single text block [Error: Cannot divide by zero]; it
    completes normally and makes no request. *)
Theorem divide_by_zero (net : Network) (a b : number) (h : option object) :
  strictEquals b (ofZ 0) = true ->
  run net (handler (call_calculate op_divide a b) h) =
    (Normal {| content := [ {| type := js "text";
                               text := js "Error: Cannot divide by zero" |} ] |},
     []).
Proof.
  intros H. unfold run, handler, calculate. now rewrite H.
Qed.

Lemma divide_by_zero_witness :
  run unreachable (handler (call_calculate op_divide (ofZ 7) (ofZ 0)) None) =
    (Normal (textResult (js "Error: Cannot divide by zero")), []).
Proof.
  apply (divide_by_zero unreachable (ofZ 7) (ofZ 0) None). reflexivity.
Defined.

(** C7.  [get_bestsellers] called with only [date_range] builds the query
    string [dateRange=] followed by the form-encoded date range and
    [&limit=10], with no [status] parameter; for "last week" that is
    [dateRange=last+week&limit=10].  In general the parameters contain
    [status] exactly when a non-empty status was provided.  The query
    string is what the handler requests, after the domain and
    [/rest/V1/mcpdata/bestsellers?]. *)
Theorem bestsellers_query_string :
  (forall date_range,
      let args := {| bs_date_range := Some date_range; bs_limit := None;
                     bs_status := None |} in
      Uri.serialize (get_bestsellers_params args) =
        js "dateRange=" ++ Uri.urlencoded (Uri.toUSVString date_range) ++ js "&limit=10" /\
      Uri.has (get_bestsellers_params args) (js "status") = false) /\
  Uri.serialize
    (get_bestsellers_params
       {| bs_date_range := Some (js "last week"); bs_limit := None; bs_status := None |}) =
    js "dateRange=last+week&limit=10" /\
  (forall args,
      Uri.has (get_bestsellers_params args) (js "status") = toBoolean (bs_status args)) /\
  (forall net h domain credential args,
      supplied h domain credential ->
      urlsRequested (snd (run net (get_bestsellers args h))) =
        [domain ++ js "/rest/V1/mcpdata/bestsellers?" ++
         Uri.serialize (get_bestsellers_params args)]).
Proof.
  split; [|split; [|split]].
  - intros date_range. split; reflexivity.
  - reflexivity.
  - intros [date_range limit [[|c status]|]]; reflexivity.
  - intros net h domain credential args S.
    exact (remote_handler_url net (call_get_bestsellers args) h domain credential _
             S eq_refl).
Qed.

Lemma bestsellers_query_string_witness :
  urlsRequested
    (snd (run unreachable
            (get_bestsellers
               {| bs_date_range := Some (js "last week"); bs_limit := None;
                  bs_status := None |}
               (Some shopHeaders)))) =
    [js "https://shop.example/rest/V1/mcpdata/bestsellers?dateRange=last+week&limit=10"].
Proof.
  exact (proj2 (proj2 (proj2 bestsellers_query_string)) unreachable (Some shopHeaders)
           (js "https://shop.example") (js "abc123")
           {| bs_date_range := Some (js "last week"); bs_limit := None; bs_status := None |}
           shopHeaders_supplied).
Defined.

(** C8.  [search_products] called with no arguments builds the query
    string [query=&pageSize=10&currentPage=1].  Whatever the arguments, the
    parameters are [query], [pageSize] and [currentPage], in this order,
    each followed by [=] and its form-encoded value, the empty one
    included.  The query string is what the handler requests, after the
    domain and [/rest/V1/mcpdata/products/search?]. *)
Theorem search_query_string :
  Uri.serialize
    (search_products_params {| query := None; page_size := None; current_page := None |}) =
    js "query=&pageSize=10&currentPage=1" /\
  (forall args,
      let q := default [] (query args) in
      let pageSize := JsNumber.toString (default (ofZ 10) (page_size args)) in
      let currentPage := JsNumber.toString (default (ofZ 1) (current_page args)) in
      map fst (search_products_params args) =
        [js "query"; js "pageSize"; js "currentPage"] /\
      Uri.serialize (search_products_params args) =
        js "query=" ++ Uri.urlencoded (Uri.toUSVString q) ++
        js "&pageSize=" ++ Uri.urlencoded (Uri.toUSVString pageSize) ++
        js "&currentPage=" ++ Uri.urlencoded (Uri.toUSVString currentPage)) /\
  (forall net h domain credential args,
      supplied h domain credential ->
      urlsRequested (snd (run net (search_products args h))) =
        [domain ++ js "/rest/V1/mcpdata/products/search?" ++
         Uri.serialize (search_products_params args)]).
Proof.
  split; [|split].
  - reflexivity.
  - intros args. split; [reflexivity|].
    unfold search_products_params, Uri.newURLSearchParams.
    cbn [map fst snd Uri.serialize].
    rewrite app_nil_r. reflexivity.
  - intros net h domain credential args S.
    exact (remote_handler_url net (call_search_products args) h domain credential _
             S eq_refl).
Qed.

Lemma search_query_string_witness :
  urlsRequested
    (snd (run unreachable
            (search_products
               {| query := None; page_size := None; current_page := None |}
               (Some shopHeaders)))) =
    [js "https://shop.example/rest/V1/mcpdata/products/search?query=&pageSize=10&currentPage=1"].
Proof.
  exact (proj2 (proj2 search_query_string) unreachable (Some shopHeaders)
           (js "https://shop.example") (js "abc123")
           {| query := None; page_size := None; current_page := None |}
           shopHeaders_supplied).
Defined.

(** C9.  [add] returns, for every pair of numbers, the single text block
    whose text is [String(a + b)], the decimal string of the binary64 sum;
    for 2 and 3 the text is [5], and for all integers between -50 and 50
    it is the decimal numeral of their sum. *)
Theorem add_returns_sum :
  (forall net a b h,
      run net (handler (call_add a b) h) =
        (Normal {| content := [ {| type := js "text";
                                   text := JsNumber.toString (JsNumber.add a b) |} ] |},
         [])) /\
  run unreachable (handler (call_add (ofZ 2) (ofZ 3)) None) =
    (Normal {| content := [ {| type := js "text"; text := js "5" |} ] |}, []) /\
  (forall net a b h,
      (-50 <= a <= 50)%Z -> (-50 <= b <= 50)%Z ->
      run net (handler (call_add (ofZ a) (ofZ b)) h) =
        (Normal {| content := [ {| type := js "text"; text := signedDecimal (a + b) |} ] |},
         [])).
Proof.
  split; [|split].
  - reflexivity.
  - reflexivity.
  - intros net a b h Ha Hb. unfold run, handler, MyMCP.add, ret, textResult.
    now rewrite (toString_small_sum a b Ha Hb).
Qed.

Lemma add_returns_sum_witness :
  run unreachable (handler (call_add (ofZ 20) (ofZ (-27))) None) =
    (Normal {| content := [ {| type := js "text"; text := js "-7" |} ] |}, []).
Proof.
  apply (proj2 (proj2 add_returns_sum) unreachable 20%Z (-27)%Z None); lia.
Defined.

(** C10.  In [get_bestsellers] and in [get_revenue] an empty status is
    handled as an absent one: the handler is the same computation, and
    the parameters contain no [status]. *)
Theorem empty_status_is_absent :
  (forall date_range limit h,
      get_bestsellers {| bs_date_range := date_range; bs_limit := limit;
                         bs_status := Some [] |} h =
      get_bestsellers {| bs_date_range := date_range; bs_limit := limit;
                         bs_status := None |} h /\
      Uri.has (get_bestsellers_params {| bs_date_range := date_range; bs_limit := limit;
                                         bs_status := Some [] |}) (js "status") = false) /\
  (forall date_range include_tax h,
      get_revenue {| rv_date_range := date_range; rv_status := Some [];
                     rv_include_tax := include_tax |} h =
      get_revenue {| rv_date_range := date_range; rv_status := None;
                     rv_include_tax := include_tax |} h /\
      Uri.has (get_revenue_params {| rv_date_range := date_range; rv_status := Some [];
                                     rv_include_tax := include_tax |}) (js "status") = false).
Proof.
  split; intros; split; reflexivity.
Qed.

End Claims.

(** * Further properties of the code *)

(** ** More on strings *)

Module JsStringMore.
Import JsString Shapes JsStringFacts.

Lemma eqb_refl (s : jsstring) : JsString.eqb s s = true.
Proof. induction s as [|c s IH]; simpl; [reflexivity|]. now rewrite N.eqb_refl. Qed.

Lemma eqb_neq (s t : jsstring) : s <> t -> JsString.eqb s t = false.
Proof.
  intros H. destruct (JsString.eqb s t) eqn:E; [|reflexivity].
  now apply eqb_eq in E.
Qed.

(** [startsWith] holds exactly when the string is the prefix followed by
    something. *)
Lemma startsWith_iff (s prefix : jsstring) :
  startsWith s prefix = true <-> exists rest, s = prefix ++ rest.
Proof.
  split.
  - revert s. induction prefix as [|p prefix IH]; intros s H.
    + now exists s.
    + destruct s as [|c s]; [discriminate|]. simpl in H.
      apply andb_true_iff in H as [Hc Hs]. apply N.eqb_eq in Hc. subst p.
      destruct (IH s Hs) as [rest ->]. now exists rest.
  - intros [rest ->]. apply startsWith_app.
Qed.

Lemma startsWith_shift (before s prefix : jsstring) :
  startsWith s prefix = true -> startsWith (before ++ s) (before ++ prefix) = true.
Proof.
  intros H. induction before as [|c before IH]; [exact H|].
  simpl. now rewrite N.eqb_refl.
Qed.

Lemma splitOn_whole (sep : N) (s : jsstring) :
  ~ In sep s -> splitOn sep s = [s].
Proof.
  induction s as [|c s IH]; intros H; [reflexivity|].
  simpl. destruct (N.eqb_spec c sep) as [->|_].
  - exfalso. apply H. now left.
  - rewrite IH; [reflexivity|]. intros Hin. apply H. now right.
Qed.

Lemma splitOn_at (sep : N) (s rest : jsstring) :
  ~ In sep s -> splitOn sep (s ++ sep :: rest) = s :: splitOn sep rest.
Proof.
  induction s as [|c s IH]; intros H.
  - simpl. now rewrite N.eqb_refl.
  - simpl. destruct (N.eqb_spec c sep) as [->|_].
    + exfalso. apply H. now left.
    + rewrite IH; [reflexivity|]. intros Hin. apply H. now right.
Qed.

(** A string of ASCII code units is its own sequence of code points. *)
Lemma toCodePoints_ascii (s : jsstring) :
  Forall (fun c => c < 0x80) s -> toCodePoints s = map Scalar s.
Proof.
  induction 1 as [|c s Hc _ IH]; [reflexivity|].
  cbn [toCodePoints map]. rewrite IH.
  unfold isLeadSurrogate, isTrailSurrogate.
  destruct (N.leb_spec 0xD800 c); [lia|].
  destruct (N.leb_spec 0xDC00 c); [lia|]. reflexivity.
Qed.

(** The code points of a string of 16-bit code units are Unicode code
    points. *)
Lemma toCodePoints_range (s : jsstring) :
  codeUnits s ->
  Forall (fun cp => match cp with Scalar c => c < 0x110000 | Unpaired _ => True end)
    (toCodePoints s).
Proof.
  unfold codeUnits.
  assert (forall n (s : jsstring), (length s <= n)%nat ->
            Forall (fun c => c < 0x10000) s ->
            Forall (fun cp => match cp with Scalar c => c < 0x110000 | Unpaired _ => True end)
              (toCodePoints s)) as H.
  { induction n as [|n IH]; intros [|c t] Hlen Hs; simpl in Hlen;
      try (constructor; fail); try lia.
    apply Forall_cons_iff in Hs as [Hc Ht].
    cbn [toCodePoints].
    destruct (isLeadSurrogate c) eqn:EL.
    - destruct t as [|d u]; [now repeat constructor|].
      apply Forall_cons_iff in Ht as [Hd Hu]. simpl in Hlen.
      destruct (isTrailSurrogate d) eqn:ET.
      + constructor; [|apply IH; [lia | exact Hu]].
        unfold isLeadSurrogate in EL. unfold isTrailSurrogate in ET.
        apply andb_true_iff in EL as [_ EL]. apply andb_true_iff in ET as [_ ET].
        apply N.leb_le in EL, ET. lia.
      + constructor; [exact I|]. apply IH; [simpl; lia | now constructor].
    - destruct (isTrailSurrogate c);
        (constructor; [first [exact I | lia] | apply IH; [lia | exact Ht]]). }
  intros Hs. exact (H (length s) s (le_n _) Hs).
Qed.

End JsStringMore.

(** ** More on the encodings *)

Module UriMore.
Import JsString JsError Uri Shapes JsStringFacts JsStringMore.

Lemma hexDigitUpper_alphanumeric (d : N) :
  d < 16 -> isAsciiAlphanumeric (hexDigitUpper d) = true.
Proof.
  intros Hd. unfold hexDigitUpper, isAsciiAlphanumeric.
  destruct (N.ltb_spec d 10).
  - replace (0x30 <=? 0x30 + d) with true by (symmetry; apply N.leb_le; lia).
    replace (0x30 + d <=? 0x39) with true by (symmetry; apply N.leb_le; lia).
    reflexivity.
  - replace (0x41 <=? 0x41 + (d - 10)) with true by (symmetry; apply N.leb_le; lia).
    replace (0x41 + (d - 10) <=? 0x5A) with true by (symmetry; apply N.leb_le; lia).
    now rewrite orb_true_r.
Qed.

Lemma alphanumeric_segmentChar (c : N) :
  isAsciiAlphanumeric c = true -> segmentChar c = true.
Proof. unfold segmentChar, uriUnescaped. now intros ->. Qed.

Lemma percentEncodeByte_segment (b : N) :
  b < 256 -> forallb segmentChar (percentEncodeByte b) = true.
Proof.
  intros Hb. unfold percentEncodeByte. cbn [forallb].
  assert (b / 16 < 16) as Hhi by (apply N.Div0.div_lt_upper_bound; lia).
  assert (b mod 16 < 16) as Hlo by (apply N.mod_lt; lia).
  rewrite (alphanumeric_segmentChar _ (hexDigitUpper_alphanumeric _ Hhi)).
  rewrite (alphanumeric_segmentChar _ (hexDigitUpper_alphanumeric _ Hlo)).
  reflexivity.
Qed.

Lemma utf8_bytes (cp : N) : cp < 0x110000 -> Forall (fun b => b < 256) (utf8 cp).
Proof.
  intros Hcp. unfold utf8.
  assert (forall x, x mod 0x40 < 0x40) as Hmod by (intros; apply N.mod_lt; lia).
  destruct (N.ltb_spec cp 0x80); [repeat constructor; lia|].
  destruct (N.ltb_spec cp 0x800).
  { assert (cp / 0x40 < 0x20) by (apply N.Div0.div_lt_upper_bound; lia).
    pose proof (Hmod cp). repeat constructor; lia. }
  destruct (N.ltb_spec cp 0x10000).
  { assert (cp / 0x1000 < 0x10) by (apply N.Div0.div_lt_upper_bound; lia).
    pose proof (Hmod cp). pose proof (Hmod (cp / 0x40)). repeat constructor; lia. }
  assert (cp / 0x40000 < 0x8) by (apply N.Div0.div_lt_upper_bound; lia).
  pose proof (Hmod cp). pose proof (Hmod (cp / 0x40)). pose proof (Hmod (cp / 0x1000)).
  repeat constructor; lia.
Qed.

Lemma forallb_flat_map {A B} (p : B -> bool) (f : A -> list B) (l : list A) :
  (forall a, In a l -> forallb p (f a) = true) ->
  forallb p (flat_map f l) = true.
Proof.
  induction l as [|a l IH]; intros H; [reflexivity|].
  cbn [flat_map]. rewrite forallb_app, H, IH; [reflexivity| |now left].
  intros b Hb. apply H. now right.
Qed.

(** What [encodeURIComponent] writes is made of unreserved characters and
    percent signs only. *)
Lemma encode_segment (cps : list codepoint) (out : jsstring) :
  Forall (fun cp => match cp with Scalar c => c < 0x110000 | Unpaired _ => True end) cps ->
  encode cps = Normal out ->
  forallb segmentChar out = true.
Proof.
  intros Hcps. revert out.
  induction Hcps as [|[cp|u] cps Hcp _ IH]; intros out; simpl encode.
  - now intros [= <-].
  - destruct (encode cps) as [r|e]; [|discriminate].
    intros [= <-]. rewrite forallb_app, (IH r eq_refl), andb_true_r.
    destruct (uriUnescaped cp) eqn:E.
    + cbn [forallb]. unfold segmentChar. now rewrite E.
    + apply forallb_flat_map. intros b Hb.
      apply percentEncodeByte_segment.
      pose proof (utf8_bytes cp Hcp) as Hall.
      rewrite Forall_forall in Hall. now apply Hall, list_elem_of_In.
  - discriminate.
Qed.

Lemma uriUnescaped_ascii (c : N) : uriUnescaped c = true -> c < 0x80.
Proof.
  intros H. destruct (N.lt_ge_cases c 0x80) as [|Hge]; [assumption|].
  exfalso. revert H. unfold uriUnescaped, isAsciiAlphanumeric.
  replace (c <=? 0x39) with false by (symmetry; apply N.leb_gt; lia).
  replace (c <=? 0x5A) with false by (symmetry; apply N.leb_gt; lia).
  replace (c <=? 0x7A) with false by (symmetry; apply N.leb_gt; lia).
  rewrite !andb_false_r. cbn [orb].
  change (js "-_.!~*'()") with [0x2D; 0x5F; 0x2E; 0x21; 0x7E; 0x2A; 0x27; 0x28; 0x29].
  cbn [existsb].
  repeat match goal with
         | |- context [c =? ?k] =>
             replace (c =? k) with false by (symmetry; apply N.eqb_neq; lia)
         end.
  discriminate.
Qed.

Lemma encode_unreserved (s : jsstring) :
  forallb uriUnescaped s = true -> encode (map Scalar s) = Normal s.
Proof.
  induction s as [|c s IH]; [reflexivity|].
  cbn [forallb map encode]. intros H. apply andb_true_iff in H as [Hc Hs].
  now rewrite (IH Hs), Hc.
Qed.

(** A string of unreserved characters is encoded as itself. *)
Lemma encodeURIComponent_unreserved (s : jsstring) :
  forallb uriUnescaped s = true -> encodeURIComponent s = Normal s.
Proof.
  intros H. unfold encodeURIComponent.
  rewrite toCodePoints_ascii; [now apply encode_unreserved|].
  apply Forall_forall. intros c Hc. apply uriUnescaped_ascii.
  rewrite forallb_forall in H. now apply H, list_elem_of_In.
Qed.

Lemma hexDigitUpper_not (d sep : N) :
  sep = 0x26 \/ sep = 0x3D -> hexDigitUpper d <> sep.
Proof.
  unfold hexDigitUpper. destruct (N.ltb_spec d 10); intros [-> | ->]; lia.
Qed.

(** The form serializer never writes an ampersand or an equals sign. *)
Lemma urlencodedByte_separator (b sep : N) :
  sep = 0x26 \/ sep = 0x3D -> ~ In sep (urlencodedByte b).
Proof.
  intros Hsep. unfold urlencodedByte, percentEncodeByte.
  destruct (N.eqb_spec b 0x20) as [_|_].
  - intros [H | []]. destruct Hsep; subst sep; discriminate.
  - destruct (isAsciiAlphanumeric b || existsb (N.eqb b) (js "*-._")) eqn:E.
    + intros [H | []]. subst b. destruct Hsep; subst sep; discriminate.
    + intros [H | [H | [H | []]]].
      * destruct Hsep; subst sep; discriminate.
      * now apply (hexDigitUpper_not _ _ Hsep) in H.
      * now apply (hexDigitUpper_not _ _ Hsep) in H.
Qed.

Lemma urlencoded_separator (u : list N) (sep : N) :
  sep = 0x26 \/ sep = 0x3D -> ~ In sep (urlencoded u).
Proof.
  intros Hsep Hin. unfold urlencoded in Hin.
  apply in_flat_map in Hin as (b & _ & Hb).
  exact (urlencodedByte_separator b sep Hsep Hb).
Qed.

(** One name-value pair as the serializer writes it. *)
Lemma pair_split (n v : list N) :
  splitOn 0x3D (urlencoded n ++ js "=" ++ urlencoded v) = [urlencoded n; urlencoded v].
Proof.
  change (js "=" ++ urlencoded v) with (0x3D :: urlencoded v).
  rewrite splitOn_at by (apply urlencoded_separator; now right).
  rewrite splitOn_whole by (apply urlencoded_separator; now right).
  reflexivity.
Qed.

Lemma pair_no_ampersand (n v : list N) :
  ~ In 0x26 (urlencoded n ++ js "=" ++ urlencoded v).
Proof.
  intros H. apply in_app_or in H as [H | H].
  - now apply (urlencoded_separator n 0x26) in H; [|left].
  - change (js "=" ++ urlencoded v) with (0x3D :: urlencoded v) in H.
    destruct H as [H | H]; [discriminate|].
    now apply (urlencoded_separator v 0x26) in H; [|left].
Qed.

(** Splitting the serialized parameters at the ampersands gives the pairs
    back, one piece each. *)
Lemma serialize_pieces (params : URLSearchParams) :
  params <> [] ->
  splitOn 0x26 (serialize params) =
    map (fun kv => urlencoded (fst kv) ++ js "=" ++ urlencoded (snd kv)) params.
Proof.
  induction params as [|[n v] rest IH]; [congruence|]. intros _.
  cbn [serialize map fst snd]. destruct rest as [|kv rest].
  - rewrite List.app_nil_r. apply splitOn_whole, pair_no_ampersand.
  - change (js "&" ++ serialize (kv :: rest)) with (0x26 :: serialize (kv :: rest)).
    rewrite !app_assoc, <- (app_assoc (urlencoded n)).
    rewrite splitOn_at by apply pair_no_ampersand.
    rewrite IH by discriminate. reflexivity.
Qed.

Lemma formSafe_ascii (c : N) : formSafe c = true \/ c = 0x20 -> c < 0x80.
Proof.
  intros [H | ->]; [|lia].
  destruct (N.lt_ge_cases c 0x80) as [|Hge]; [assumption|].
  exfalso. revert H. unfold formSafe, isAsciiAlphanumeric.
  replace (c <=? 0x39) with false by (symmetry; apply N.leb_gt; lia).
  replace (c <=? 0x5A) with false by (symmetry; apply N.leb_gt; lia).
  replace (c <=? 0x7A) with false by (symmetry; apply N.leb_gt; lia).
  rewrite !andb_false_r. cbn [orb].
  change (js "*-._") with [0x2A; 0x2D; 0x2E; 0x5F].
  cbn [existsb].
  repeat match goal with
         | |- context [c =? ?k] =>
             replace (c =? k) with false by (symmetry; apply N.eqb_neq; lia)
         end.
  discriminate.
Qed.

(** Letters, digits, [*-._] and spaces are written as they are, except
    that each space becomes a plus sign. *)
Lemma urlencoded_plain (s : jsstring) :
  forallb (fun c => formSafe c || (c =? 0x20)) s = true ->
  urlencoded (toUSVString s) = map plusForSpace s.
Proof.
  intros H. unfold toUSVString.
  assert (Forall (fun c => c < 0x80) s) as Hascii.
  { apply Forall_forall. intros c Hc. apply formSafe_ascii.
    rewrite forallb_forall in H. apply list_elem_of_In, H in Hc.
    apply orb_true_iff in Hc as [Hc | Hc]; [now left | right].
    now apply N.eqb_eq. }
  rewrite (toCodePoints_ascii s Hascii). clear Hascii.
  unfold toUSV. rewrite map_map, map_id. unfold urlencoded.
  induction s as [|c s IH]; [reflexivity|].
  cbn [forallb] in H. apply andb_true_iff in H as [Hc Hs].
  assert (c < 0x80) as Hlt.
  { apply formSafe_ascii. apply orb_true_iff in Hc as [Hc | Hc];
      [now left | right; now apply N.eqb_eq]. }
  cbn [map flat_map].
  unfold utf8 at 1. replace (c <? 0x80) with true by (symmetry; now apply N.ltb_lt).
  cbn [app flat_map]. rewrite (IH Hs).
  unfold urlencodedByte, plusForSpace, formSafe in *.
  destruct (N.eqb_spec c 0x20); [reflexivity|].
  rewrite orb_false_r in Hc. now rewrite Hc.
Qed.

End UriMore.

(** ** Round trips of the encodings *)

Module RoundTrip.
Import JsString JsError Uri Shapes Decoding JsStringFacts JsStringMore UriFacts UriMore.

(** Checked by evaluation: the two hexadecimal digits of a byte give the
    byte back. *)
Lemma hex_checked :
  forallb (fun n => let b := N.of_nat n in
                    hexVal (hexDigitUpper (b / 16)) * 16 + hexVal (hexDigitUpper (b mod 16))
                    =? b)
    (seq 0 256) = true.
Proof. vm_compute. reflexivity. Qed.

Lemma hex_byte (b : N) :
  b < 256 -> hexVal (hexDigitUpper (b / 16)) * 16 + hexVal (hexDigitUpper (b mod 16)) = b.
Proof.
  intros Hb. pose proof (proj1 (forallb_forall _ _) hex_checked) as H.
  specialize (H (N.to_nat b)). cbv beta zeta in H. rewrite N2Nat.id in H.
  apply N.eqb_eq, H, in_seq. lia.
Qed.

Lemma unescape_percent (b : N) (rest : jsstring) :
  b < 256 -> unescape (percentEncodeByte b ++ rest) = b :: unescape rest.
Proof.
  intros Hb. unfold percentEncodeByte. cbn [app unescape].
  rewrite N.eqb_refl. now rewrite (hex_byte b Hb).
Qed.

Lemma unescapeForm_percent (b : N) (rest : jsstring) :
  b < 256 -> unescapeForm (percentEncodeByte b ++ rest) = b :: unescapeForm rest.
Proof.
  intros Hb. unfold percentEncodeByte. cbn [app unescapeForm].
  rewrite N.eqb_refl. now rewrite (hex_byte b Hb).
Qed.

Lemma unescape_percents (bs : list N) (rest : jsstring) :
  Forall (fun b => b < 256) bs ->
  unescape (flat_map percentEncodeByte bs ++ rest) = bs ++ unescape rest.
Proof.
  induction 1 as [|b bs Hb _ IH]; [reflexivity|].
  cbn [flat_map]. rewrite <- app_assoc, (unescape_percent b _ Hb), IH. reflexivity.
Qed.

(** The bytes under the escapes of [encodeURIComponent] are the UTF-8
    encoding of the code points. *)
Lemma unescape_encode (cps : list codepoint) (out : jsstring) :
  Forall (fun cp => match cp with Scalar c => c < 0x110000 | Unpaired _ => True end) cps ->
  encode cps = Normal out ->
  unescape out = flat_map utf8 (toUSV cps).
Proof.
  intros Hcps. revert out.
  induction Hcps as [|[cp|u] cps Hcp _ IH]; intros out; cbn [encode].
  - now intros [= <-].
  - destruct (encode cps) as [r|e]; [|discriminate].
    intros [= <-]. cbn [toUSV map flat_map]. fold (toUSV cps).
    rewrite <- (IH r eq_refl).
    destruct (uriUnescaped cp) eqn:E.
    + pose proof (uriUnescaped_ascii cp E) as Hlt.
      unfold utf8. replace (cp <? 0x80) with true by (symmetry; now apply N.ltb_lt).
      cbn [app unescape].
      destruct (N.eqb_spec cp 0x25) as [->|_]; [discriminate E | reflexivity].
    + apply unescape_percents, utf8_bytes, Hcp.
  - discriminate.
Qed.

(** Closes an arithmetic goal once the quotients and remainders in it
    are taken as unknowns. *)
Ltac opaque_quotients :=
  repeat match goal with
         | |- context [?a / ?b] =>
             let q := fresh "q" in set (q := a / b) in *; clearbody q
         | H : context [?a / ?b] |- _ =>
             let q := fresh "q" in set (q := a / b) in *; clearbody q
         | |- context [?a mod ?b] =>
             let m := fresh "m" in set (m := a mod b) in *; clearbody m
         | H : context [?a mod ?b] |- _ =>
             let m := fresh "m" in set (m := a mod b) in *; clearbody m
         end;
  lia.

Lemma utf8decode_utf8 (cp : N) (rest : list N) :
  cp < 0x110000 -> utf8decode (utf8 cp ++ rest) = cp :: utf8decode rest.
Proof.
  intros Hcp. unfold utf8.
  assert (forall x, x mod 0x40 < 0x40) as Hmod by (intros; apply N.mod_lt; lia).
  assert (forall x, x = 0x40 * (x / 0x40) + x mod 0x40) as Hdm
      by (intros; apply N.div_mod; lia).
  destruct (N.ltb_spec cp 0x80) as [H1|H1].
  { cbn [app utf8decode]. now replace (cp <? 0x80) with true by (symmetry; now apply N.ltb_lt). }
  destruct (N.ltb_spec cp 0x800) as [H2|H2].
  { assert (cp / 0x40 < 0x20) by (apply N.Div0.div_lt_upper_bound; lia).
    pose proof (Hmod cp). pose proof (Hdm cp).
    cbn [app utf8decode].
    replace (0xC0 + cp / 0x40 <? 0x80) with false by (symmetry; apply N.ltb_ge; lia).
    replace (0xC0 + cp / 0x40 <? 0xE0) with true by (symmetry; apply N.ltb_lt; lia).
    f_equal. clear Hmod Hdm. opaque_quotients. }
  destruct (N.ltb_spec cp 0x10000) as [H3|H3].
  { assert (cp / 0x1000 < 0x10) by (apply N.Div0.div_lt_upper_bound; lia).
    pose proof (Hmod cp). pose proof (Hmod (cp / 0x40)).
    pose proof (Hdm cp). pose proof (Hdm (cp / 0x40)).
    assert (cp / 0x40 / 0x40 = cp / 0x1000) by (now rewrite N.Div0.div_div).
    cbn [app utf8decode].
    replace (0xE0 + cp / 0x1000 <? 0x80) with false by (symmetry; apply N.ltb_ge; lia).
    replace (0xE0 + cp / 0x1000 <? 0xE0) with false by (symmetry; apply N.ltb_ge; lia).
    replace (0xE0 + cp / 0x1000 <? 0xF0) with true by (symmetry; apply N.ltb_lt; lia).
    f_equal. clear Hmod Hdm. opaque_quotients. }
  assert (cp / 0x40000 < 0x8) by (apply N.Div0.div_lt_upper_bound; lia).
  pose proof (Hmod cp). pose proof (Hmod (cp / 0x40)). pose proof (Hmod (cp / 0x1000)).
  pose proof (Hdm cp). pose proof (Hdm (cp / 0x40)). pose proof (Hdm (cp / 0x1000)).
  assert (cp / 0x40 / 0x40 = cp / 0x1000) by (now rewrite N.Div0.div_div).
  assert (cp / 0x1000 / 0x40 = cp / 0x40000) by (now rewrite N.Div0.div_div).
  cbn [app utf8decode].
  replace (0xF0 + cp / 0x40000 <? 0x80) with false by (symmetry; apply N.ltb_ge; lia).
  replace (0xF0 + cp / 0x40000 <? 0xE0) with false by (symmetry; apply N.ltb_ge; lia).
  replace (0xF0 + cp / 0x40000 <? 0xF0) with false by (symmetry; apply N.ltb_ge; lia).
  f_equal. clear Hmod Hdm. opaque_quotients.
Qed.

Lemma utf8decode_all (cps : list N) :
  Forall (fun cp => cp < 0x110000) cps -> utf8decode (flat_map utf8 cps) = cps.
Proof.
  induction 1 as [|cp cps Hcp _ IH]; [reflexivity|].
  cbn [flat_map]. now rewrite (utf8decode_utf8 cp _ Hcp), IH.
Qed.


Lemma scalars_range (cps : list codepoint) :
  Forall (fun cp => match cp with Scalar c => c < 0x110000 | Unpaired _ => True end) cps ->
  forallb isScalar cps = true ->
  Forall (fun cp => cp < 0x110000) (toUSV cps).
Proof.
  induction 1 as [|[c|u] cps Hc _ IH]; cbn [forallb isScalar toUSV map]; intros Hs.
  - constructor.
  - constructor; [exact Hc | now apply IH].
  - discriminate.
Qed.

(** A well-formed string of 16-bit code units is the string of its own
    scalar values. *)
Lemma fromScalars_toUSV (s : jsstring) :
  codeUnits s -> isWellFormed s = true -> fromScalars (toUSVString s) = s.
Proof.
  unfold codeUnits, isWellFormed, toUSVString, fromScalars.
  assert (forall n (s : jsstring), (length s <= n)%nat ->
            Forall (fun c => c < 0x10000) s ->
            forallb isScalar (toCodePoints s) = true ->
            flat_map JSON.utf16 (toUSV (toCodePoints s)) = s) as H.
  { induction n as [|n IH]; intros [|c t] Hlen Hs; simpl in Hlen;
      try reflexivity; try lia.
    apply Forall_cons_iff in Hs as [Hc Ht].
    cbn [toCodePoints].
    destruct (isLeadSurrogate c) eqn:EL.
    - destruct t as [|d u]; [discriminate|].
      apply Forall_cons_iff in Ht as [Hd Hu]. simpl in Hlen.
      destruct (isTrailSurrogate d) eqn:ET; [|discriminate].
      cbn [forallb isScalar andb toUSV map flat_map]. intros Hw.
      fold (toUSV (toCodePoints u)). rewrite (IH u) by (lia || assumption).
      unfold isLeadSurrogate in EL. unfold isTrailSurrogate in ET.
      apply andb_true_iff in EL as [EL1 EL2]. apply andb_true_iff in ET as [ET1 ET2].
      apply N.leb_le in EL1, EL2, ET1, ET2.
      unfold JSON.utf16.
      replace ((c - 0xD800) * 0x400 + (d - 0xDC00) + 0x10000 <? 0x10000) with false
        by (symmetry; apply N.ltb_ge; lia).
      replace ((c - 0xD800) * 0x400 + (d - 0xDC00) + 0x10000 - 0x10000)
        with ((d - 0xDC00) + (c - 0xD800) * 0x400) by lia.
      rewrite N.div_add by lia. rewrite N.Div0.mod_add.
      rewrite N.div_small, N.mod_small by lia.
      cbn [app]. do 2 f_equal; lia.
    - destruct (isTrailSurrogate c) eqn:ET; [discriminate|].
      cbn [forallb isScalar andb toUSV map flat_map]. intros Hw.
      fold (toUSV (toCodePoints t)). rewrite (IH t) by (lia || assumption).
      unfold JSON.utf16.
      now replace (c <? 0x10000) with true by (symmetry; now apply N.ltb_lt). }
  intros Hs Hw. exact (H (length s) s (le_n _) Hs Hw).
Qed.

Lemma encode_wellFormed (s out : jsstring) :
  encodeURIComponent s = Normal out -> isWellFormed s = true.
Proof.
  intros H. destruct (isWellFormed s) eqn:E; [reflexivity|].
  rewrite (encodeURIComponent_malformed s E) in H. discriminate.
Qed.

(** What [encodeURIComponent] wrote can be read back. *)
Lemma decodeComponent_encode (s out : jsstring) :
  codeUnits s -> encodeURIComponent s = Normal out -> decodeComponent out = s.
Proof.
  intros Hs Henc. pose proof (encode_wellFormed s out Henc) as Hw.
  unfold decodeComponent.
  rewrite (unescape_encode _ _ (toCodePoints_range s Hs) Henc).
  rewrite utf8decode_all by (apply scalars_range; [now apply toCodePoints_range | exact Hw]).
  now apply fromScalars_toUSV.
Qed.

Lemma formSafe_not_special (b : N) : formSafe b = true -> b <> 0x25 /\ b <> 0x2B.
Proof. intros H. split; intros ->; discriminate. Qed.

Lemma unescapeForm_byte (b : N) (rest : jsstring) :
  b < 256 -> unescapeForm (urlencodedByte b ++ rest) = b :: unescapeForm rest.
Proof.
  intros Hb. unfold urlencodedByte.
  destruct (N.eqb_spec b 0x20) as [->|_]; [reflexivity|].
  fold (formSafe b). destruct (formSafe b) eqn:E.
  - destruct (formSafe_not_special b E) as [H1 H2].
    cbn [app unescapeForm].
    now rewrite (proj2 (N.eqb_neq _ _) H1), (proj2 (N.eqb_neq _ _) H2).
  - now apply unescapeForm_percent.
Qed.

Lemma unescapeForm_urlencoded (cps : list N) :
  Forall (fun cp => cp < 0x110000) cps ->
  unescapeForm (urlencoded cps) = flat_map utf8 cps.
Proof.
  intros H. unfold urlencoded.
  assert (Forall (fun b => b < 256) (flat_map utf8 cps)) as Hb.
  { induction H as [|cp cps Hcp _ IH]; [constructor|].
    cbn [flat_map]. apply Forall_app. split; [now apply utf8_bytes | exact IH]. }
  induction Hb as [|b bs Hb _ IH]; [reflexivity|].
  cbn [flat_map]. now rewrite (unescapeForm_byte b _ Hb), IH.
Qed.

(** A well-formed value can be read back from its form encoding. *)
Lemma decodeForm_urlencoded (s : jsstring) :
  codeUnits s -> isWellFormed s = true ->
  decodeForm (urlencoded (toUSVString s)) = s.
Proof.
  intros Hs Hw. unfold decodeForm.
  assert (Forall (fun cp => cp < 0x110000) (toUSVString s)) as Hr
      by (apply scalars_range; [now apply toCodePoints_range | exact Hw]).
  rewrite (unescapeForm_urlencoded _ Hr), (utf8decode_all _ Hr).
  now apply fromScalars_toUSV.
Qed.

End RoundTrip.

(** ** More on the forwarder and the handlers *)

Module HandlerMore.
Import JsString JsNumber JsError Fetch MyMCP Forwarder Tools.
Import JsStringFacts JsStringMore UriFacts ForwarderFacts HandlerFacts.

Lemma Normal_inj {A} (a a' : A) : Normal a = Normal a' -> a = a'.
Proof. now intros [=]. Qed.

Lemma supplied_not_lacking (h : option object) (domain credential : jsstring) :
  supplied h domain credential -> ~ lacking h.
Proof.
  intros (Hd & Td & Hc & Tc) [L | L]; [rewrite Hd in L | rewrite Hc in L];
    simpl in L; congruence.
Qed.

(** The trace of a remote handler: empty, or the one request of the
    forwarder. *)
Lemma remote_handler_quiet (net : Network) (c : RemoteCall) (h : option object) :
  lacking h \/ encodable c = false ->
  snd (run net (remote_handler c h)) = [].
Proof.
  intros H. rewrite remote_handler_try_catch. unfold run, try_catch.
  rewrite remote_try_endpoint.
  destruct (encodable c) eqn:E.
  - destruct H as [L | ?]; [|discriminate].
    destruct (endpointOf_encodable c E) as [endpoint ->].
    now rewrite (callAndRender_lacking _ _ _ _ L).
  - now rewrite (endpointOf_malformed c E).
Qed.

Lemma remote_handler_trace (net : Network) (c : RemoteCall) (h : option object)
    (domain credential endpoint : jsstring) :
  supplied h domain credential ->
  endpointOf c = Normal endpoint ->
  snd (run net (remote_handler c h)) =
    [requestFor endpoint (js "GET") JSON.JNull h domain credential].
Proof.
  intros S E. rewrite remote_handler_try_catch. unfold run, try_catch.
  rewrite remote_try_endpoint, E.
  rewrite (callAndRender_supplied _ _ _ _ _ _ S).
  now destruct (rendered _).
Qed.

(** What a remote handler returns once its request has settled. *)
Lemma remote_handler_result (net : Network) (c : RemoteCall) (h : option object)
    (domain credential endpoint : jsstring) :
  supplied h domain credential ->
  endpointOf c = Normal endpoint ->
  let call := requestFor endpoint (js "GET") JSON.JNull h domain credential in
  fst (run net (remote_handler c h)) =
    match rewrapped (afterFetch (net (fst call) (snd call))) with
    | Normal v => Normal (textResult (JSON.stringify v 2))
    | Throw e => Normal (textResult (js "Error: " ++ message e))
    end.
Proof.
  intros S E. cbn zeta. rewrite remote_handler_try_catch. unfold run, try_catch.
  rewrite remote_try_endpoint, E.
  rewrite (callAndRender_supplied _ _ _ _ _ _ S).
  now destruct (rewrapped _).
Qed.

Lemma endpointOf_mcpdata (c : RemoteCall) (endpoint : jsstring) :
  endpointOf c = Normal endpoint -> exists rest, endpoint = js "mcpdata/" ++ rest.
Proof.
  destruct c as [s | s | args | s | args | args]; cbn [endpointOf];
    try destruct (Uri.encodeURIComponent s) as [e|e];
    intros H; try discriminate; apply Normal_inj in H; subst endpoint.
  - now exists (js "product/sku/" ++ e).
  - now exists (js "products/ids/" ++ e).
  - now exists (js "products/search?" ++ Uri.serialize (search_products_params args)).
  - now exists (js "product/categories/" ++ e).
  - now exists (js "bestsellers?" ++ Uri.serialize (get_bestsellers_params args)).
  - now exists (js "revenue?" ++ Uri.serialize (get_revenue_params args)).
Qed.

(** The request of a tool that puts its argument into the path. *)
Lemma path_request_shape (net : Network) (c : RemoteCall) (h : option object)
    (prefix arg url : jsstring) (init : RequestInit) :
  Shapes.pathArgument c = Some (prefix, arg) ->
  In (url, init) (snd (run net (remote_handler c h))) ->
  exists domain segment,
    get h (js "x-magento-domain") = Some domain /\
    Uri.encodeURIComponent arg = Normal segment /\
    url = domain ++ js "/rest/V1/" ++ prefix ++ segment.
Proof.
  intros Hpath Hin.
  destruct (encodable c) eqn:E;
    [|now rewrite (remote_handler_quiet net c h (or_intror E)) in Hin].
  destruct (supplied_or_lacking h) as [L | (domain & credential & S)];
    [now rewrite (remote_handler_quiet net c h (or_introl L)) in Hin|].
  assert (exists segment, Uri.encodeURIComponent arg = Normal segment /\
                          endpointOf c = Normal (prefix ++ segment))
    as (segment & Henc & Hep).
  { destruct c; try discriminate; cbn [Shapes.pathArgument] in Hpath;
      apply (f_equal (fun o => match o with Some p => p | None => ([], []) end)) in Hpath;
      apply pair_equal_spec in Hpath as [<- <-]; cbn [encodable] in E;
      destruct (encodeURIComponent_wellFormed _ E) as [segment Hs];
      exists segment; cbn [endpointOf]; now rewrite Hs. }
  rewrite (remote_handler_trace net c h _ _ _ S Hep) in Hin.
  destruct Hin as [Hin | []]. unfold requestFor in Hin.
  apply pair_equal_spec in Hin as [<- _].
  exists domain, segment. split; [apply S|]. now split.
Qed.

Lemma shopHeaders_ok :
  supplied (Some Scenario.shopHeaders) (js "https://shop.example") (js "abc123").
Proof. repeat split. Qed.


End HandlerMore.

(** ** The headers a request carries *)

Module WireFacts.
Import JsString JsError Fetch MyMCP Forwarder Wire.
Import JsStringFacts JsStringMore ForwarderFacts.









End WireFacts.

(** ** Dot segments and optional arguments *)

Module ShapeFacts.
Import JsString JsNumber JsError MyMCP Shapes.
Import JsStringFacts JsStringMore UriFacts UriMore RoundTrip.

(** [encodeURIComponent] writes a dot segment only for the arguments [.]
    and [..]: a percent sign in its output never spells [%2e]. *)
Lemma dot_segment_argument (arg segment : jsstring) :
  codeUnits arg ->
  Uri.encodeURIComponent arg = Normal segment ->
  isDotSegment segment = true ->
  arg = js "." \/ arg = js "..".
Proof.
  intros Hunits Henc Hdot.
  pose proof (decodeComponent_encode arg segment Hunits Henc) as Hback.
  unfold isDotSegment in Hdot. apply existsb_exists in Hdot as (s & Hin & Hs).
  apply eqb_eq in Hs. subst segment. unfold dotSegments in Hin. cbn [In] in Hin.
  repeat (destruct Hin as [<- | Hin];
          [vm_compute in Hback; subst arg;
           first [ left; reflexivity | right; reflexivity ]|]).
  contradiction.
Qed.

Lemma unreserved_dot_segment (arg : jsstring) :
  forallb Uri.uriUnescaped arg = true ->
  isDotSegment arg = true ->
  arg = js "." \/ arg = js "..".
Proof.
  intros Harg Hdot.
  unfold isDotSegment in Hdot. apply existsb_exists in Hdot as (s & Hin & Hs).
  apply eqb_eq in Hs. subst arg. unfold dotSegments in Hin. cbn [In] in Hin.
  repeat (destruct Hin as [<- | Hin];
          [first [ left; reflexivity | right; reflexivity
                 | exfalso; vm_compute in Harg; discriminate Harg ]|]).
  contradiction.
Qed.

Lemma today_wellFormed (date_range : option jsstring) :
  wellFormed date_range ->
  codeUnits (default (js "today") date_range) /\
  isWellFormed (default (js "today") date_range) = true.
Proof.
  destruct date_range as [s|]; [easy|]. intros _. split; [|reflexivity].
  repeat constructor.
Qed.

Lemma empty_wellFormed (query : option jsstring) :
  wellFormed query ->
  codeUnits (default [] query) /\ isWellFormed (default [] query) = true.
Proof.
  destruct query as [s|]; [easy|]. intros _. split; [constructor | reflexivity].
Qed.

Lemma givenStatus_wellFormed (status : option jsstring) :
  wellFormed status -> wellFormed (givenStatus status).
Proof.
  destruct status as [s|]; intros Hs; [|exact I].
  cbn [givenStatus]. now destruct (truthy s).
Qed.

(** The pieces of the query string of [get_bestsellers]. *)
Lemma bestsellers_pieces (args : BestsellersArgs) :
  get_bestsellers_params args <> [] /\
  pieces (get_bestsellers_params args) =
    [Uri.urlencoded (Uri.toUSVString (js "dateRange"));
     Uri.urlencoded (Uri.toUSVString (default (js "today") (bs_date_range args)))] ::
    [Uri.urlencoded (Uri.toUSVString (js "limit"));
     Uri.urlencoded (Uri.toUSVString (JsNumber.toString (default (ofZ 10) (bs_limit args))))] ::
    match givenStatus (bs_status args) with
    | Some s => [[Uri.urlencoded (Uri.toUSVString (js "status"));
                  Uri.urlencoded (Uri.toUSVString s)]]
    | None => []
    end.
Proof.
  unfold get_bestsellers_params, givenStatus, Uri.newURLSearchParams, Uri.append, pieces.
  destruct (bs_status args) as [s|]; [destruct (truthy s)|]; split;
    solve [discriminate | reflexivity].
Qed.

End ShapeFacts.

(** ** Further concrete inputs *)

Module MoreInputs.
Import JsString JsNumber JsError Fetch MyMCP Scenario.

(** A body for a write call: [{"qty": 2}]. *)
Definition order : JSON.value := JSON.JObject [ (js "qty", JSON.JNumber (ofZ 2)) ].


(** A search query that tries to bring its own parameters. *)
Definition greedyQuery : jsstring := js "shoes&pageSize=500=".

(** An upstream whose success body is not JSON. *)
Definition upstreamGarbled : Network :=
  fun _ _ =>
    Normal {| status := 200; statusText := js "OK";
              Fetch.text := Normal (js "<html>");
              json := Throw {| name := SyntaxError;
                               message := js "Unexpected token < in JSON at position 0" |} |}.

End MoreInputs.

(** ** Properties beyond the claims *)

Module Extras.
Import JsString JsNumber JsError Fetch MyMCP Forwarder Tools Scenario Shapes MoreInputs.
Import JsStringFacts JsNumberFacts JsStringMore UriFacts UriMore RoundTrip.
Import ForwarderFacts HandlerFacts HandlerMore.
Import Wire WireFacts ShapeFacts.

(** X1.  [makeApiCall] calls [fetch] at most once, and not at all exactly
    when one of the two headers is absent or empty: there is no retry and
    no request without both headers. *)
Theorem forwarder_fetches_at_most_once (net : Network) (endpoint method : jsstring)
    (data : JSON.value) (h : option object) :
  let trace := snd (run net (makeApiCall endpoint method data h)) in
  (length trace <= 1)%nat /\ (trace = [] <-> lacking h).
Proof.
  cbn zeta. unfold run.
  destruct (supplied_or_lacking h) as [L | (domain & credential & S)].
  - rewrite (makeApiCall_lacking _ _ _ _ _ _ L). cbn [snd length].
    split; [lia | tauto].
  - rewrite (makeApiCall_supplied _ _ _ _ _ _ _ _ S). cbn [snd app length].
    split; [lia|]. split; [discriminate|].
    intros L. now destruct (supplied_not_lacking _ _ _ S).
Qed.

(** X2.  Every handler calls [fetch] at most once.  The two arithmetic
    tools never do; a remote tool does not exactly when a header is absent
    or empty or its path argument cannot be encoded. *)
Theorem handler_fetch_count (net : Network) (c : ToolCall) (h : option object) :
  let trace := snd (run net (handler c h)) in
  (length trace <= 1)%nat /\
  match c with
  | remote r => trace = [] <-> (lacking h \/ encodable r = false)
  | call_add _ _ | call_calculate _ _ _ => trace = []
  end.
Proof.
  cbn zeta. destruct c as [r | a b | operation a b].
  - cbn [handler].
    destruct (encodable r) eqn:E.
    + destruct (supplied_or_lacking h) as [L | (domain & credential & S)].
      * rewrite (remote_handler_quiet net r h (or_introl L)). cbn [length].
        split; [lia | tauto].
      * destruct (endpointOf_encodable r E) as [endpoint Hep].
        rewrite (remote_handler_trace net r h _ _ _ S Hep). cbn [length].
        split; [lia|]. split; [discriminate|].
        intros [L | ?]; [|discriminate]. now destruct (supplied_not_lacking _ _ _ S).
    + rewrite (remote_handler_quiet net r h (or_intror E)). cbn [length].
      split; [lia | tauto].
  - split; [cbn; lia | reflexivity].
  - unfold run, handler, calculate.
    destruct operation; try destruct (strictEquals b _); split; cbn; try lia; reflexivity.
Qed.

(** X3.  Every request a remote handler makes is a GET without a body,
    to the domain of the per-call headers followed by [/rest/V1/mcpdata/]. *)
Theorem remote_requests_are_reads (net : Network) (c : RemoteCall) (h : option object)
    (url : jsstring) (init : RequestInit) :
  In (url, init) (snd (run net (remote_handler c h))) ->
  method init = js "GET" /\ body init = None /\
  exists domain rest,
    get h (js "x-magento-domain") = Some domain /\
    url = domain ++ js "/rest/V1/mcpdata/" ++ rest.
Proof.
  intros Hin.
  destruct (encodable c) eqn:E;
    [|now rewrite (remote_handler_quiet net c h (or_intror E)) in Hin].
  destruct (supplied_or_lacking h) as [L | (domain & credential & S)];
    [now rewrite (remote_handler_quiet net c h (or_introl L)) in Hin|].
  destruct (endpointOf_encodable c E) as [endpoint Hep].
  rewrite (remote_handler_trace net c h _ _ _ S Hep) in Hin.
  destruct Hin as [Hin | []]. unfold requestFor in Hin.
  apply pair_equal_spec in Hin as [<- <-].
  split; [reflexivity|]. split; [reflexivity|].
  destruct (endpointOf_mcpdata c endpoint Hep) as [rest ->].
  exists domain, rest. split; [apply S | reflexivity].
Qed.

Lemma remote_requests_are_reads_witness :
  exists url init,
    In (url, init)
      (snd (run upstreamOk
              (remote_handler
                 (call_get_revenue {| rv_date_range := None; rv_status := None;
                                      rv_include_tax := None |})
                 (Some shopHeaders)))) /\
    url = js "https://shop.example/rest/V1/mcpdata/revenue?dateRange=today&includeTax=true" /\
    method init = js "GET" /\ body init = None.
Proof.
  pose (call := requestFor (js "mcpdata/revenue?dateRange=today&includeTax=true")
                  (js "GET") JSON.JNull (Some shopHeaders)
                  (js "https://shop.example") (js "abc123")).
  assert (In (fst call, snd call)
            (snd (run upstreamOk
                    (remote_handler
                       (call_get_revenue {| rv_date_range := None; rv_status := None;
                                            rv_include_tax := None |})
                       (Some shopHeaders))))) as Hin by (left; reflexivity).
  destruct (remote_requests_are_reads upstreamOk _ _ _ _ Hin) as (Hm & Hb & _).
  exists (fst call), (snd call).
  exact (conj Hin (conj eq_refl (conj Hm Hb))).
Defined.

(** X4.  The request of [makeApiCall] keeps the method it was given.  It
    has no body when the method is GET or when the data is falsy ([null],
    [false], [0], [NaN] or the empty string), whatever the method; for
    any other method and truthy data the body is [JSON.stringify(data)]. *)
Theorem forwarder_body (net : Network) (endpoint method : jsstring)
    (data : JSON.value) (h : option object) (url : jsstring) (init : RequestInit) :
  In (url, init) (snd (run net (makeApiCall endpoint method data h))) ->
  Fetch.method init = method /\
  (method = js "GET" \/ JSON.toBoolean data = false -> body init = None) /\
  (method <> js "GET" -> JSON.toBoolean data = true ->
   body init = Some (JSON.stringify data 0)).
Proof.
  unfold run.
  destruct (supplied_or_lacking h) as [L | (domain & credential & S)].
  - now rewrite (makeApiCall_lacking _ _ _ _ _ _ L).
  - rewrite (makeApiCall_supplied _ _ _ _ _ _ _ _ S). intros [Hin | []].
    unfold requestFor in Hin. apply pair_equal_spec in Hin as [_ <-].
    cbn [Fetch.method body]. split; [reflexivity|]. split.
    + intros [-> | ->]; [now rewrite eqb_refl, andb_false_r | reflexivity].
    + intros Hm ->. now rewrite (eqb_neq _ _ Hm).
Qed.

Lemma forwarder_body_witness :
  map (fun call => body (snd call))
    (snd (run upstreamOk
            (makeApiCall (js "orders") (js "POST") order (Some shopHeaders)))) =
    [Some (js "{" ++ [0x22] ++ js "qty" ++ [0x22] ++ js ":2}")].
Proof.
  pose (call := requestFor (js "orders") (js "POST") order (Some shopHeaders)
                  (js "https://shop.example") (js "abc123")).
  assert (In (fst call, snd call)
            (snd (run upstreamOk
                    (makeApiCall (js "orders") (js "POST") order (Some shopHeaders)))))
    as Hin by (left; reflexivity).
  destruct (forwarder_body upstreamOk _ _ _ _ _ _ Hin) as (_ & _ & Hbody).
  exact (f_equal (fun b => [b]) (Hbody ltac:(discriminate) eq_refl)).
Defined.





(** X7.  Once a remote handler has made its request, every way the
    exchange can fail ends as one text block: a rejected [fetch], a body
    of a success response that does not parse as JSON, and a body of a
    failure response that cannot be read all give [Error: API call error: ]
    followed by the message of the underlying error. *)
Theorem exchange_failures_surface (net : Network) (c : RemoteCall) (h : option object)
    (url : jsstring) (init : RequestInit) (e : error) :
  In (url, init) (snd (run net (remote_handler c h))) ->
  net url init = Throw e \/
  (exists r, net url init = Normal r /\ ok r = true /\ json r = Throw e) \/
  (exists r, net url init = Normal r /\ ok r = false /\ Fetch.text r = Throw e) ->
  fst (run net (remote_handler c h)) =
    Normal (textResult (js "Error: API call error: " ++ message e)).
Proof.
  intros Hin Hfail.
  destruct (encodable c) eqn:E;
    [|now rewrite (remote_handler_quiet net c h (or_intror E)) in Hin].
  destruct (supplied_or_lacking h) as [L | (domain & credential & S)];
    [now rewrite (remote_handler_quiet net c h (or_introl L)) in Hin|].
  destruct (endpointOf_encodable c E) as [endpoint Hep].
  rewrite (remote_handler_trace net c h _ _ _ S Hep) in Hin.
  destruct Hin as [Hin | []].
  rewrite (remote_handler_result net c h _ _ _ S Hep).
  set (call := requestFor _ _ _ _ _ _) in *.
  assert (afterFetch (net (fst call) (snd call)) = Throw e) as ->.
  { rewrite Hin. cbn [fst snd]. unfold afterFetch.
    destruct Hfail as [-> | [(r & -> & Hok & Hj) | (r & -> & Hok & Ht)]].
    - reflexivity.
    - now rewrite Hok.
    - now rewrite Hok, Ht. }
  reflexivity.
Qed.

Lemma exchange_failures_surface_witness :
  fst (run upstreamGarbled
         (remote_handler (call_get_product_categories (js "24-MB01")) (Some shopHeaders))) =
    Normal (textResult
      (js "Error: API call error: Unexpected token < in JSON at position 0")).
Proof.
  pose (call := requestFor (js "mcpdata/product/categories/24-MB01") (js "GET") JSON.JNull
                  (Some shopHeaders) (js "https://shop.example") (js "abc123")).
  refine (exchange_failures_surface upstreamGarbled
            (call_get_product_categories (js "24-MB01")) (Some shopHeaders)
            (fst call) (snd call)
            {| name := SyntaxError;
               message := js "Unexpected token < in JSON at position 0" |} _ _).
  - left. reflexivity.
  - right. left. eexists. repeat split.
Defined.

(** X8.  A path argument with an unpaired surrogate stops the handler
    before the forwarder: whatever the headers and the upstream, the
    result is the one text block [Error: URI malformed] and no request is
    made. *)
Theorem malformed_argument_stops (net : Network) (c : RemoteCall) (h : option object) :
  encodable c = false ->
  run net (remote_handler c h) =
    (Normal (textResult (js "Error: URI malformed")), []).
Proof.
  intros E. rewrite remote_handler_try_catch. unfold run, try_catch.
  rewrite remote_try_endpoint. now rewrite (endpointOf_malformed c E).
Qed.

Lemma malformed_argument_stops_witness :
  run upstreamOk
    (remote_handler (call_get_products_by_ids (js "1,2," ++ [0xDC00])) (Some shopHeaders)) =
    (Normal (textResult (js "Error: URI malformed")), []).
Proof.
  apply (malformed_argument_stops upstreamOk
           (call_get_products_by_ids (js "1,2," ++ [0xDC00])) (Some shopHeaders)).
  reflexivity.
Defined.

(** X9.  The URL string that [get_product_by_sku], [get_products_by_ids]
    and [get_product_categories] hand to [fetch] is the domain,
    [/rest/V1/], the fixed part of the endpoint and the encoded argument.
    The encoded argument holds unreserved characters and percent signs
    only, so no slash, question mark, hash, ampersand, equals sign, comma
    or space (a whole list of ids is encoded as one string), and it is a
    dot segment only when the argument itself is [.] or [..].  These two
    arguments are handed on as they are, and what the URL parser of
    [fetch] then does with a dot segment is outside this statement. *)
Theorem path_argument_encoded (net : Network) (c : RemoteCall) (h : option object)
    (prefix arg url : jsstring) (init : RequestInit) :
  pathArgument c = Some (prefix, arg) ->
  codeUnits arg ->
  In (url, init) (snd (run net (remote_handler c h))) ->
  exists domain segment,
    get h (js "x-magento-domain") = Some domain /\
    Uri.encodeURIComponent arg = Normal segment /\
    url = domain ++ js "/rest/V1/" ++ prefix ++ segment /\
    forallb segmentChar segment = true /\
    (forall ch, In ch (js "/?#&=, ") -> ~ In ch segment) /\
    (isDotSegment segment = true -> arg = js "." \/ arg = js "..") /\
    (arg = js "." \/ arg = js ".." -> segment = arg).
Proof.
  intros Hpath Hunits Hin.
  destruct (path_request_shape net c h prefix arg url init Hpath Hin)
    as (domain & segment & Hd & Henc & Hurl).
  assert (forallb segmentChar segment = true) as Hseg
      by exact (encode_segment _ _ (toCodePoints_range arg Hunits) Henc).
  exists domain, segment. repeat (split; [assumption|]).
  split; [|split].
  - intros ch Hch Hin'. rewrite forallb_forall in Hseg. apply Hseg in Hin'.
    change (js "/?#&=, ") with [0x2F; 0x3F; 0x23; 0x26; 0x3D; 0x2C; 0x20] in Hch.
    cbn [In] in Hch.
    repeat (destruct Hch as [<- | Hch]; [discriminate|]). exact Hch.
  - exact (dot_segment_argument arg segment Hunits Henc).
  - intros Hdots. apply Normal_inj. rewrite <- Henc.
    destruct Hdots as [-> | ->]; reflexivity.
Qed.

Lemma path_argument_encoded_witness :
  exists segment,
    urlsRequested
      (snd (run upstreamOk
              (remote_handler (call_get_products_by_ids (js "1,2/3")) (Some shopHeaders)))) =
      [js "https://shop.example/rest/V1/mcpdata/products/ids/" ++ segment] /\
    ~ In 0x2C segment /\ ~ In 0x2F segment /\ isDotSegment segment = false.
Proof.
  pose (call := requestFor (js "mcpdata/products/ids/1%2C2%2F3") (js "GET") JSON.JNull
                  (Some shopHeaders) (js "https://shop.example") (js "abc123")).
  assert (In (fst call, snd call)
            (snd (run upstreamOk
                    (remote_handler (call_get_products_by_ids (js "1,2/3"))
                       (Some shopHeaders))))) as Hin by (left; reflexivity).
  assert (codeUnits (js "1,2/3")) as Hunits by (repeat constructor).
  destruct (path_argument_encoded upstreamOk
              (call_get_products_by_ids (js "1,2/3")) (Some shopHeaders)
              (js "mcpdata/products/ids/") (js "1,2/3") (fst call) (snd call)
              eq_refl Hunits Hin)
    as (domain & segment & _ & Henc & _ & _ & Hnot & Hdot & _).
  exists segment. split.
  - assert (Normal segment = Normal (js "1%2C2%2F3")) as H
        by (rewrite <- Henc; reflexivity).
    apply Normal_inj in H. now rewrite H.
  - split; [apply Hnot; vm_compute; auto 10|].
    split; [apply Hnot; vm_compute; auto 10|].
    destruct (isDotSegment segment); [|reflexivity].
    destruct (Hdot eq_refl) as [H | H]; discriminate H.
Defined.

(** X10.  An argument made of unreserved characters only (letters,
    digits and [-_.!~*'()]), as SKUs and numeric ids are, is put into the
    URL string handed to [fetch] unchanged; among such arguments only [.]
    and [..] are dot segments. *)
Theorem unreserved_argument_verbatim (net : Network) (c : RemoteCall) (h : option object)
    (prefix arg domain credential : jsstring) :
  pathArgument c = Some (prefix, arg) ->
  forallb Uri.uriUnescaped arg = true ->
  supplied h domain credential ->
  urlsRequested (snd (run net (remote_handler c h))) =
    [domain ++ js "/rest/V1/" ++ prefix ++ arg] /\
  (isDotSegment arg = true -> arg = js "." \/ arg = js "..").
Proof.
  intros Hpath Harg S. split; [|exact (unreserved_dot_segment arg Harg)].
  apply (remote_handler_url net c h domain credential (prefix ++ arg) S).
  destruct c; try discriminate; cbn [pathArgument] in Hpath;
    apply (f_equal (fun o => match o with Some p => p | None => ([], []) end)) in Hpath;
    apply pair_equal_spec in Hpath as [<- <-]; cbn [endpointOf];
    now rewrite (encodeURIComponent_unreserved _ Harg).
Qed.

Lemma unreserved_argument_verbatim_witness :
  urlsRequested
    (snd (run unreachable
            (remote_handler (call_get_product_by_sku (js "24-MB01")) (Some shopHeaders)))) =
    [js "https://shop.example/rest/V1/mcpdata/product/sku/24-MB01"].
Proof.
  exact (proj1 (unreserved_argument_verbatim unreachable
                  (call_get_product_by_sku (js "24-MB01"))
                  (Some shopHeaders) (js "mcpdata/product/sku/") (js "24-MB01")
                  (js "https://shop.example") (js "abc123") eq_refl eq_refl shopHeaders_ok)).
Defined.

Lemma serialize_splits (params : Uri.URLSearchParams) :
  params <> [] ->
  map (splitOn 0x3D) (splitOn 0x26 (Uri.serialize params)) = pieces params.
Proof.
  intros H. rewrite (serialize_pieces params H). unfold pieces.
  rewrite map_map. apply map_ext. intros [n v]. apply pair_split.
Qed.

(** X11.  No argument can add or hide a query parameter.  Whatever the
    strings passed as query, date range or status, splitting the query
    string at [&] and then at [=] gives back exactly the parameters of the
    handler, each as its encoded name and its encoded value: three for
    [search_products], two or three for [get_bestsellers] and
    [get_revenue]. *)
Theorem query_string_keeps_parameters :
  (forall args,
      map (splitOn 0x3D) (splitOn 0x26 (Uri.serialize (search_products_params args))) =
        pieces (search_products_params args) /\
      length (search_products_params args) = 3%nat) /\
  (forall args,
      map (splitOn 0x3D) (splitOn 0x26 (Uri.serialize (get_bestsellers_params args))) =
        pieces (get_bestsellers_params args) /\
      length (get_bestsellers_params args) =
        (if toBoolean (bs_status args) then 3 else 2)%nat) /\
  (forall args,
      map (splitOn 0x3D) (splitOn 0x26 (Uri.serialize (get_revenue_params args))) =
        pieces (get_revenue_params args) /\
      length (get_revenue_params args) =
        (if toBoolean (rv_status args) then 3 else 2)%nat).
Proof.
  split; [|split]; intros args.
  - split; [now apply serialize_splits | reflexivity].
  - split.
    + apply serialize_splits. unfold get_bestsellers_params.
      destruct (bs_status args) as [[|c s]|]; discriminate.
    + unfold get_bestsellers_params.
      now destruct (bs_status args) as [[|c s]|].
  - split.
    + apply serialize_splits. unfold get_revenue_params.
      destruct (rv_status args) as [[|c s]|]; discriminate.
    + unfold get_revenue_params.
      now destruct (rv_status args) as [[|c s]|].
Qed.

Lemma query_string_keeps_parameters_witness :
  map (splitOn 0x3D)
    (splitOn 0x26
       (Uri.serialize
          (search_products_params
             {| query := Some greedyQuery; page_size := None; current_page := None |}))) =
    [ [js "query"; js "shoes%26pageSize%3D500%3D"];
      [js "pageSize"; js "10"];
      [js "currentPage"; js "1"] ].
Proof.
  exact (proj1 (proj1 query_string_keeps_parameters
                  {| query := Some greedyQuery; page_size := None;
                     current_page := None |})).
Defined.

(** X12.  A date range written with letters, digits, [*-._] and spaces,
    as all the documented forms are, is sent as it is with a plus sign for
    each space, in [get_bestsellers] and in [get_revenue]. *)
Theorem plain_date_range (date_range : jsstring) :
  forallb (fun c => formSafe c || (c =? 0x20)) date_range = true ->
  Uri.serialize
    (get_bestsellers_params
       {| bs_date_range := Some date_range; bs_limit := None; bs_status := None |}) =
    js "dateRange=" ++ map plusForSpace date_range ++ js "&limit=10" /\
  Uri.serialize
    (get_revenue_params
       {| rv_date_range := Some date_range; rv_status := None; rv_include_tax := None |}) =
    js "dateRange=" ++ map plusForSpace date_range ++ js "&includeTax=true".
Proof.
  intros H. rewrite <- (urlencoded_plain date_range H). split; reflexivity.
Qed.

Lemma plain_date_range_witness :
  Uri.serialize
    (get_revenue_params
       {| rv_date_range := Some (js "2024-01-01 to 2024-01-31"); rv_status := None;
          rv_include_tax := None |}) =
    js "dateRange=2024-01-01+to+2024-01-31&includeTax=true".
Proof.
  exact (proj2 (plain_date_range (js "2024-01-01 to 2024-01-31") eq_refl)).
Defined.

(** X13.  The query strings of [get_bestsellers] and [get_revenue] in
    full: the date range (default [today]) comes first, then the limit
    (default 10) or the tax flag written [true] or [false] (default
    [true]), and a status that is given and not empty comes last. *)
Theorem status_comes_last :
  (forall args,
      Uri.serialize (get_bestsellers_params args) =
        js "dateRange=" ++
        Uri.urlencoded (Uri.toUSVString (default (js "today") (bs_date_range args))) ++
        js "&limit=" ++
        Uri.urlencoded
          (Uri.toUSVString (JsNumber.toString (default (ofZ 10) (bs_limit args)))) ++
        statusSuffix (bs_status args)) /\
  (forall args,
      Uri.serialize (get_revenue_params args) =
        js "dateRange=" ++
        Uri.urlencoded (Uri.toUSVString (default (js "today") (rv_date_range args))) ++
        js "&includeTax=" ++
        (if default true (rv_include_tax args) then js "true" else js "false") ++
        statusSuffix (rv_status args)).
Proof.
  split; intros [a b c].
  - unfold get_bestsellers_params, statusSuffix. cbn [bs_date_range bs_limit bs_status].
    destruct c as [[|ch s]|]; cbn [truthy]; unfold Uri.append, Uri.newURLSearchParams;
      cbn [map app fst snd Uri.serialize]; rewrite ?List.app_nil_r; reflexivity.
  - unfold get_revenue_params, statusSuffix.
    cbn [rv_date_range rv_include_tax rv_status].
    destruct b as [[|ch s]|], (default true c);
      cbn [truthy]; unfold Uri.append, Uri.newURLSearchParams;
      cbn [map app fst snd Uri.serialize]; rewrite ?List.app_nil_r; reflexivity.
Qed.

(** Checked by evaluation: a count up to 999 is written into a query
    string as its decimal digits. *)
Lemma counts_checked :
  forallb (fun n =>
             JsString.eqb
               (Uri.urlencoded (Uri.toUSVString (JsNumber.toString (ofZ (Z.of_nat n)))))
               (decimal (Z.of_nat n)))
    (seq 0 1000) = true.
Proof. vm_compute. reflexivity. Qed.

Lemma count_encoded (n : N) :
  n < 1000 ->
  Uri.urlencoded (Uri.toUSVString (JsNumber.toString (ofZ (Z.of_N n)))) =
    decimal (Z.of_N n).
Proof.
  intros Hn. pose proof (proj1 (forallb_forall _ _) counts_checked) as H.
  specialize (H (N.to_nat n)). cbv beta in H. rewrite N_nat_Z in H.
  apply eqb_eq, H, in_seq. lia.
Qed.

(** X14.  Whole page sizes, page numbers and limits below 1000 appear in
    the query string as plain decimal numerals. *)
Theorem whole_counts_are_decimal (n m : N) :
  n < 1000 -> m < 1000 ->
  (forall q,
      Uri.serialize
        (search_products_params
           {| query := q; page_size := Some (ofZ (Z.of_N n));
              current_page := Some (ofZ (Z.of_N m)) |}) =
        js "query=" ++ Uri.urlencoded (Uri.toUSVString (default [] q)) ++
        js "&pageSize=" ++ decimal (Z.of_N n) ++
        js "&currentPage=" ++ decimal (Z.of_N m)) /\
  (forall date_range,
      Uri.serialize
        (get_bestsellers_params
           {| bs_date_range := date_range; bs_limit := Some (ofZ (Z.of_N n));
              bs_status := None |}) =
        js "dateRange=" ++
        Uri.urlencoded (Uri.toUSVString (default (js "today") date_range)) ++
        js "&limit=" ++ decimal (Z.of_N n)).
Proof.
  intros Hn Hm. rewrite <- (count_encoded n Hn), <- (count_encoded m Hm).
  split; intros x.
  - unfold search_products_params, Uri.newURLSearchParams.
    cbn [map fst snd Uri.serialize query page_size current_page default].
    rewrite List.app_nil_r. reflexivity.
  - unfold get_bestsellers_params, Uri.newURLSearchParams.
    cbn [map fst snd Uri.serialize bs_date_range bs_limit bs_status].
    rewrite List.app_nil_r. reflexivity.
Qed.

Lemma whole_counts_are_decimal_witness :
  Uri.serialize
    (search_products_params
       {| query := Some (js "bag"); page_size := Some (ofZ 25);
          current_page := Some (ofZ 3) |}) =
    js "query=bag&pageSize=25&currentPage=3".
Proof.
  exact (proj1 (whole_counts_are_decimal 25 3 eq_refl eq_refl) (Some (js "bag"))).
Defined.

(** Checked by evaluation, for all integers between -50 and 50:
    differences and products are exact and print as integers, so do the
    quotients that are whole, and no integer but zero equals zero. *)
Lemma calculator_checked :
  forallb (fun a =>
    forallb (fun b =>
      JsString.eqb (JsNumber.toString (sub (ofZ a) (ofZ b))) (signedDecimal (a - b)) &&
      JsString.eqb (JsNumber.toString (mul (ofZ a) (ofZ b))) (signedDecimal (a * b)) &&
      (if (b =? 0)%Z then true
       else
         negb (strictEquals (ofZ b) (ofZ 0)) &&
         (if (a mod b =? 0)%Z
          then JsString.eqb (JsNumber.toString (div (ofZ a) (ofZ b)))
                 (signedDecimal (a / b))
          else true)))
      (integersFrom (-50) 101))
    (integersFrom (-50) 101) = true.
Proof. vm_compute. reflexivity. Qed.

(** X15.  On integers between -50 and 50 [calculate] is exact: it
    returns the decimal numeral of the sum, of the difference and of the
    product, and, for a non-zero divisor that divides the dividend, of the
    quotient. *)
Theorem calculator_small_integers (net : Network) (a b : Z) (h : option object) :
  (-50 <= a <= 50)%Z -> (-50 <= b <= 50)%Z ->
  run net (handler (call_calculate op_add (ofZ a) (ofZ b)) h) =
    (Normal (textResult (signedDecimal (a + b))), []) /\
  run net (handler (call_calculate op_subtract (ofZ a) (ofZ b)) h) =
    (Normal (textResult (signedDecimal (a - b))), []) /\
  run net (handler (call_calculate op_multiply (ofZ a) (ofZ b)) h) =
    (Normal (textResult (signedDecimal (a * b))), []) /\
  (b <> 0%Z -> (a mod b = 0)%Z ->
   run net (handler (call_calculate op_divide (ofZ a) (ofZ b)) h) =
     (Normal (textResult (signedDecimal (a / b))), [])).
Proof.
  intros Ha Hb.
  pose proof (proj1 (forallb_forall _ _) calculator_checked) as H.
  assert (In a (integersFrom (-50) 101)) as Hina by (apply in_integersFrom; lia).
  assert (In b (integersFrom (-50) 101)) as Hinb by (apply in_integersFrom; lia).
  specialize (H a Hina). cbv beta in H.
  pose proof (proj1 (forallb_forall _ _) H b Hinb) as H'. cbv beta in H'.
  apply andb_true_iff in H' as [H' Hdiv]. apply andb_true_iff in H' as [Hsub Hmul].
  apply eqb_eq in Hsub, Hmul.
  unfold run, handler, calculate, ret, textResult.
  rewrite (toString_small_sum a b Ha Hb), Hsub, Hmul.
  repeat split.
  intros Hb0 Hmod.
  rewrite (proj2 (Z.eqb_neq b 0) Hb0) in Hdiv.
  apply andb_true_iff in Hdiv as [Hnz Hq].
  apply negb_true_iff in Hnz. rewrite Hnz.
  rewrite (proj2 (Z.eqb_eq (a mod b) 0) Hmod) in Hq.
  apply eqb_eq in Hq. now rewrite Hq.
Qed.

Lemma calculator_small_integers_witness :
  run unreachable (handler (call_calculate op_divide (ofZ (-42)) (ofZ 7)) None) =
    (Normal (textResult (js "-6")), []).
Proof.
  refine (proj2 (proj2 (proj2
            (calculator_small_integers unreachable (-42)%Z 7%Z None _ _))) _ _);
    [lia | lia | discriminate | reflexivity].
Defined.

Lemma rewrapped_text_prefixed (e : error) :
  startsWith (js "Error: " ++ message (rewrap e)) (js "Error: API call error: ") = true.
Proof. exact (startsWith_app (js "Error: API call error: ") (message e)). Qed.

(** X17.  A remote handler answers with one of three texts and nothing
    else: [Error: URI malformed], a text that starts with
    [Error: API call error: ], or the rendering of the JSON value that a
    success response to its request parsed to. *)
Theorem remote_texts_classified (net : Network) (c : RemoteCall) (h : option object) :
  exists t,
    fst (run net (remote_handler c h)) = Normal (textResult t) /\
    (t = js "Error: URI malformed" \/
     startsWith t (js "Error: API call error: ") = true \/
     exists url init r v,
       In (url, init) (snd (run net (remote_handler c h))) /\
       net url init = Normal r /\ ok r = true /\ json r = Normal v /\
       t = JSON.stringify v 2).
Proof.
  destruct (encodable c) eqn:E.
  - destruct (endpointOf_encodable c E) as [endpoint Hep].
    destruct (supplied_or_lacking h) as [L | (domain & credential & S)].
    + exists (js "Error: API call error: Missing required headers: x-magento-domain and authorization").
      split; [|right; left; reflexivity].
      rewrite remote_handler_try_catch. unfold run, try_catch.
      rewrite remote_try_endpoint, Hep.
      now rewrite (callAndRender_lacking _ _ _ _ L).
    + rewrite (remote_handler_result net c h _ _ _ S Hep).
      rewrite (remote_handler_trace net c h _ _ _ S Hep).
      set (call := requestFor _ _ _ _ _ _).
      destruct (net (fst call) (snd call)) as [r|e] eqn:Hnet; cbn [afterFetch].
      * destruct (ok r) eqn:Hok.
        { destruct (json r) as [v|e] eqn:Hjson; cbn [rewrapped].
          - exists (JSON.stringify v 2). split; [reflexivity|].
            right. right. exists (fst call), (snd call), r, v.
            repeat split; try assumption. left. now destruct call.
          - eexists. split; [reflexivity|]. right. left.
            apply rewrapped_text_prefixed. }
        { destruct (Fetch.text r) as [t|e]; cbn [rewrapped];
            (eexists; split; [reflexivity|]; right; left;
             apply rewrapped_text_prefixed). }
      * eexists. split; [reflexivity|]. right. left.
        apply rewrapped_text_prefixed.
  - exists (js "Error: URI malformed"). split; [|now left].
    rewrite remote_handler_try_catch. unfold run, try_catch.
    rewrite remote_try_endpoint. now rewrite (endpointOf_malformed c E).
Qed.

(** X18.  The path encoding loses nothing: when two calls of the same
    path tool, with the same headers, hand the same URL string to [fetch],
    their arguments are the same string.  This is about the string handed
    to [fetch], not about the address its URL parser makes of it. *)
Theorem url_string_determines_argument (net : Network) (c1 c2 : RemoteCall)
    (h : option object) (prefix arg1 arg2 url : jsstring) :
  pathArgument c1 = Some (prefix, arg1) ->
  pathArgument c2 = Some (prefix, arg2) ->
  codeUnits arg1 -> codeUnits arg2 ->
  urlsRequested (snd (run net (remote_handler c1 h))) = [url] ->
  urlsRequested (snd (run net (remote_handler c2 h))) = [url] ->
  arg1 = arg2.
Proof.
  intros Hp1 Hp2 Hu1 Hu2 H1 H2. unfold urlsRequested in H1, H2.
  destruct (snd (run net (remote_handler c1 h))) as [|[u1 i1] [|]] eqn:T1;
    try discriminate. injection H1 as ->.
  destruct (snd (run net (remote_handler c2 h))) as [|[u2 i2] [|]] eqn:T2;
    try discriminate. injection H2 as ->.
  assert (In (url, i1) (snd (run net (remote_handler c1 h)))) as In1
      by (rewrite T1; now left).
  assert (In (url, i2) (snd (run net (remote_handler c2 h)))) as In2
      by (rewrite T2; now left).
  destruct (path_request_shape net c1 h prefix arg1 url i1 Hp1 In1)
    as (d1 & s1 & Hd1 & He1 & Hurl1).
  destruct (path_request_shape net c2 h prefix arg2 url i2 Hp2 In2)
    as (d2 & s2 & Hd2 & He2 & Hurl2).
  assert (d2 = d1) as -> by congruence.
  rewrite Hurl1 in Hurl2. do 3 apply app_inv_head in Hurl2. subst s2.
  rewrite <- (decodeComponent_encode arg1 s1 Hu1 He1).
  now rewrite <- (decodeComponent_encode arg2 s1 Hu2 He2).
Qed.

Lemma url_string_determines_argument_witness :
  js "24-MB01" = js "24-MB01".
Proof.
  exact (url_string_determines_argument unreachable
           (call_get_product_by_sku (js "24-MB01")) (call_get_product_by_sku (js "24-MB01"))
           (Some shopHeaders) (js "mcpdata/product/sku/") (js "24-MB01") (js "24-MB01")
           (js "https://shop.example/rest/V1/mcpdata/product/sku/24-MB01")
           eq_refl eq_refl
           ltac:(repeat constructor) ltac:(repeat constructor) eq_refl eq_refl).
Defined.

Lemma urlencoded_injective (s1 s2 : jsstring) :
  codeUnits s1 -> codeUnits s2 ->
  isWellFormed s1 = true -> isWellFormed s2 = true ->
  Uri.urlencoded (Uri.toUSVString s1) = Uri.urlencoded (Uri.toUSVString s2) ->
  s1 = s2.
Proof.
  intros Hu1 Hu2 Hw1 Hw2 H.
  rewrite <- (decodeForm_urlencoded s1 Hu1 Hw1), <- (decodeForm_urlencoded s2 Hu2 Hw2).
  now rewrite H.
Qed.

Lemma pieces_equal (p1 p2 : Uri.URLSearchParams) :
  p1 <> [] -> p2 <> [] -> Uri.serialize p1 = Uri.serialize p2 -> pieces p1 = pieces p2.
Proof.
  intros N1 N2 H.
  rewrite <- (serialize_splits p1 N1), <- (serialize_splits p2 N2). now rewrite H.
Qed.

(** X19.  The form encoding loses nothing of a well-formed string,
    whatever the other arguments of the two calls are: two searches whose
    query strings are equal had the same query (an omitted one being the
    empty string), and two bestseller requests whose query strings are
    equal had the same date range (an omitted one being [today]) and the
    same non-empty status, or neither had one. *)
Theorem query_values_recoverable :
  (forall a1 a2 : SearchArgs,
      wellFormed (query a1) -> wellFormed (query a2) ->
      Uri.serialize (search_products_params a1) =
      Uri.serialize (search_products_params a2) ->
      default [] (query a1) = default [] (query a2)) /\
  (forall a1 a2 : BestsellersArgs,
      wellFormed (bs_date_range a1) -> wellFormed (bs_date_range a2) ->
      wellFormed (bs_status a1) -> wellFormed (bs_status a2) ->
      Uri.serialize (get_bestsellers_params a1) =
      Uri.serialize (get_bestsellers_params a2) ->
      default (js "today") (bs_date_range a1) = default (js "today") (bs_date_range a2) /\
      givenStatus (bs_status a1) = givenStatus (bs_status a2)).
Proof.
  split.
  - intros a1 a2 W1 W2 H. apply pieces_equal in H; [|discriminate|discriminate].
    unfold pieces, search_products_params, Uri.newURLSearchParams in H.
    cbn [map fst snd] in H.
    apply empty_wellFormed in W1 as [U1 F1]. apply empty_wellFormed in W2 as [U2 F2].
    apply (f_equal (fun l => nth 1 (nth 0 l []) [])) in H. cbn [nth] in H.
    now apply urlencoded_injective.
  - intros a1 a2 D1 D2 S1 S2 H.
    destruct (bestsellers_pieces a1) as [N1 P1], (bestsellers_pieces a2) as [N2 P2].
    apply pieces_equal in H; [|exact N1|exact N2]. rewrite P1, P2 in H.
    apply today_wellFormed in D1 as [U1 F1]. apply today_wellFormed in D2 as [U2 F2].
    split.
    + apply (f_equal (fun l => nth 1 (nth 0 l []) [])) in H. cbn [nth] in H.
      now apply urlencoded_injective.
    + apply givenStatus_wellFormed in S1, S2.
      destruct (givenStatus (bs_status a1)) as [s1|],
               (givenStatus (bs_status a2)) as [s2|].
      * apply (f_equal (fun l => nth 1 (nth 2 l []) [])) in H. cbn [nth] in H.
        destruct S1, S2. f_equal. now apply urlencoded_injective.
      * apply (f_equal (@length _)) in H. discriminate H.
      * apply (f_equal (@length _)) in H. discriminate H.
      * reflexivity.
Qed.

Lemma query_values_recoverable_witness :
  default (js "today") None = default (js "today") (Some (js "today")) /\
  givenStatus (Some []) = givenStatus None.
Proof.
  assert (wellFormed (Some (js "today"))) as Htoday
      by (split; [repeat constructor | reflexivity]).
  assert (wellFormed (Some [])) as Hempty by (split; [constructor | reflexivity]).
  exact (proj2 query_values_recoverable
           {| bs_date_range := None; bs_limit := None; bs_status := Some [] |}
           {| bs_date_range := Some (js "today"); bs_limit := Some (ofZ 10);
              bs_status := None |}
           I Htoday Hempty I eq_refl).
Defined.

(** X20.  When the upstream answers the request of a remote handler with
    a non-success status and a readable body, the tool returns the one
    text block [Error: API call error: API call failed: ] followed by the
    status code, the status text, [ - ] and the body; a 404 with the body
    [not found] gives a text that contains [404] and [not found]. *)
Theorem upstream_failure_text (net : Network) (c : RemoteCall) (h : option object)
    (url : jsstring) (init : RequestInit) (r : Response) (errorText : jsstring) :
  In (url, init) (snd (run net (remote_handler c h))) ->
  net url init = Normal r ->
  ok r = false ->
  Fetch.text r = Normal errorText ->
  fst (run net (remote_handler c h)) =
    Normal (textResult
      (js "Error: API call error: API call failed: " ++
       JsNumber.toString (ofZ (Z.of_N (status r))) ++ js " " ++ statusText r ++
       js " - " ++ errorText)).
Proof.
  intros Hin Hnet Hok Htext.
  destruct (encodable c) eqn:E;
    [|now rewrite (remote_handler_quiet net c h (or_intror E)) in Hin].
  destruct (supplied_or_lacking h) as [L | (domain & credential & S)];
    [now rewrite (remote_handler_quiet net c h (or_introl L)) in Hin|].
  destruct (endpointOf_encodable c E) as [endpoint Hep].
  rewrite (remote_handler_trace net c h _ _ _ S Hep) in Hin.
  destruct Hin as [Hin | []].
  rewrite (remote_handler_result net c h _ _ _ S Hep).
  set (call := requestFor _ _ _ _ _ _) in *.
  assert (net (fst call) (snd call) = Normal r) as -> by now rewrite Hin.
  unfold afterFetch. now rewrite Hok, Htext.
Qed.

Lemma upstream_failure_text_witness :
  let t := js "Error: API call error: API call failed: 404 Not Found - not found" in
  fst (run upstream404
         (remote_handler (call_get_product_by_sku (js "none")) (Some shopHeaders))) =
    Normal (textResult t) /\
  includes t (js "404") = true /\ includes t (js "not found") = true.
Proof.
  pose (call := requestFor (js "mcpdata/product/sku/none") (js "GET") JSON.JNull
                  (Some shopHeaders) (js "https://shop.example") (js "abc123")).
  assert (In (fst call, snd call)
            (snd (run upstream404
                    (remote_handler (call_get_product_by_sku (js "none"))
                       (Some shopHeaders))))) as Hin by (left; reflexivity).
  split; [|split; reflexivity].
  exact (upstream_failure_text upstream404 (call_get_product_by_sku (js "none"))
           (Some shopHeaders) (fst call) (snd call) notFound (js "not found")
           Hin eq_refl eq_refl eq_refl).
Defined.

End Extras.
